(** * VisionTalk: provider routing and request normalisation

    A shallow embedding of the server's [POST /api/analyze] handler
    (Hugging Face and OpenAI/Ollama paths) and of the Gemini service
    function [analyzeImageAndChat], together with the properties of the
    routing layer: which provider is called, what the outbound request
    contains, and what the caller gets back.

    Outbound provider calls are the only effect that matters here.  A
    handler is a small interaction tree: it either finishes, throws, or
    awaits one provider call and continues with the settled promise. *)

From Stdlib Require Import String Ascii List Bool ZArith QArith Lia.
From Stdlib Require Import DecimalString DecimalZ.
Import ListNotations.
Local Open Scope Z_scope.
Local Open Scope string_scope.
Local Open Scope list_scope.

Set Implicit Arguments.

(** ** JavaScript values used by the code *)

Module Js.

(** A string is truthy unless it is empty. *)
Definition truthy_string (s : string) : bool :=
  match s with
  | EmptyString => false
  | String _ _ => true
  end.

(** [string | undefined]: an environment variable, an optional field. *)
Definition truthy (v : option string) : bool :=
  match v with
  | Some s => truthy_string s
  | None => false
  end.

(** [a || b] on two optional strings. *)
Definition or_else (a b : option string) : option string :=
  if truthy a then a else b.

(** [a || "literal"]. *)
Definition or_default (a : option string) (d : string) : string :=
  match a with
  | Some s => if truthy_string s then s else d
  | None => d
  end.

(** [!v] on a value that is an object or null. *)
Definition is_null {A} (v : option A) : bool :=
  match v with
  | Some _ => false
  | None => true
  end.

(** [xs.join(sep)] on an array of strings. *)
Definition join (sep : string) (xs : list string) : string :=
  String.concat sep xs.

(** The line feed of a template literal. *)
Definition LF : string := String (ascii_of_nat 10) EmptyString.

(** An [Error] object; only its [message] is read. *)
Record Error := { error_message : string }.

(** What V8 reports for [undefined.message]. *)
Definition TypeError_reading_message : Error :=
  {| error_message := "Cannot read properties of undefined (reading 'message')" |}.

End Js.

(** ** Effects: awaiting provider calls *)

Section Prog.

(** [E] are the outbound calls, [R] what a fulfilled call yields. *)
Variables E R : Type.

Inductive Settled :=
| Fulfilled (v : R)
| Rejected (e : Js.Error).

Inductive Prog (A : Type) :=
| Done (a : A)
| Throw (e : Js.Error)
| Await (c : E) (k : Settled -> Prog A).

Arguments Done {A} a.
Arguments Throw {A} e.
Arguments Await {A} c k.

Fixpoint bind {A B} (p : Prog A) (f : A -> Prog B) : Prog B :=
  match p with
  | Done a => f a
  | Throw e => Throw e
  | Await c k => Await c (fun s => bind (k s) f)
  end.

(** [try { p } catch (e) { h e }] *)
Fixpoint try_catch {A} (p : Prog A) (h : Js.Error -> Prog A) : Prog A :=
  match p with
  | Done a => Done a
  | Throw e => h e
  | Await c k => Await c (fun s => try_catch (k s) h)
  end.

(** [await call]: a rejected promise throws at the await. *)
Definition await (c : E) : Prog R :=
  Await c (fun s =>
    match s with
    | Fulfilled v => Done v
    | Rejected e => Throw e
    end).

Inductive Completion (A : Type) :=
| Returned (a : A)
| Threw (e : Js.Error).

Arguments Returned {A} a.
Arguments Threw {A} e.

(** Running a handler against the outside world: [world] settles each
    call.  The result is the list of calls made, in order, and how the
    handler completed. *)
Fixpoint run {A} (world : E -> Settled) (p : Prog A)
  : list E * Completion A :=
  match p with
  | Done a => ([], Returned a)
  | Throw e => ([], Threw e)
  | Await c k =>
      let '(calls, r) := run world (k (world c)) in
      (c :: calls, r)
  end.

End Prog.

Arguments Fulfilled {R} v.
Arguments Rejected {R} e.
Arguments Done {E R A} a.
Arguments Throw {E R A} e.
Arguments Await {E R A} c k.
Arguments await {E R} c.
Arguments Returned {A} a.
Arguments Threw {A} e.

Notation "x <- p ;; q" := (bind p (fun x => q))
  (at level 61, p at next level, right associativity).

(** ** src/types.ts *)

Inductive MessageRole := user | assistant.

Definition MessageRole_eqb (a b : MessageRole) : bool :=
  match a, b with
  | user, user | assistant, assistant => true
  | _, _ => false
  end.

(** The role as the string it is on the wire. *)
Definition role_string (r : MessageRole) : string :=
  match r with
  | user => "user"
  | assistant => "assistant"
  end.

Record Image := { data : string; mimeType : string }.

Record MessagePart := { text : option string; image : option Image }.

Record ChatMessage := {
  id : string;
  role : MessageRole;
  parts : list MessagePart;
  timestamp : Z
}.

(** ** process.env *)

Record Env := {
  HUGGINGFACE_API_KEY : option string;
  OLLAMA_API_KEY : option string;
  OPENAI_API_KEY : option string;
  OLLAMA_BASE_URL : option string;
  GEMINI_API_KEY : option string
}.

(** ** The language instruction (server line 46-47, service line 18-19) *)

Definition langInstruction (language : string) : string :=
  Js.LF ++ Js.LF ++ "IMPORTANT: You MUST provide your response in " ++ language ++ ".".

Definition fullSystemInstruction (systemInstruction language : string) : string :=
  systemInstruction ++ langInstruction language.

(** ** Chat-completion wire format (Hugging Face and OpenAI) *)

Inductive ContentPart :=
| image_url (url : string)      (* { type: "image_url", image_url: { url } } *)
| text_part (t : string).       (* { type: "text", text } *)

Inductive Content :=
| content_string (s : string)
| content_parts (ps : list ContentPart).

Record OutMessage := { out_role : string; content : Content }.

Record ChatRequest := {
  req_model : string;
  req_messages : list OutMessage;
  max_tokens : Z
}.

Record ChoiceMessage := { message_content : option string }.
Record Choice := { message : ChoiceMessage }.
Record ChatCompletion := { choices : list Choice }.

Record HfInference := { accessToken : string }.
Record OpenAI := { apiKey : string; baseURL : option string }.

Inductive ProviderCall :=
| hf_chatCompletion (hf : HfInference) (req : ChatRequest)
| openai_chat_completions_create (openai : OpenAI) (req : ChatRequest).

Definition is_hf_call (c : ProviderCall) : bool :=
  match c with
  | hf_chatCompletion _ _ => true
  | openai_chat_completions_create _ _ => false
  end.

Definition is_openai_call (c : ProviderCall) : bool :=
  match c with
  | hf_chatCompletion _ _ => false
  | openai_chat_completions_create _ _ => true
  end.

(** ** The HTTP response of the endpoint *)

Inductive JsonBody :=
| json_text (t : option string)   (* { text: ... } *)
| json_error (e : string).        (* { error: ... } *)

Record HttpResponse := { status : Z; body : JsonBody }.

(** [res.json(b)] *)
Definition res_json (b : JsonBody) : HttpResponse :=
  {| status := 200; body := b |}.

(** [res.status(n).json(b)] *)
Definition res_status_json (n : Z) (b : JsonBody) : HttpResponse :=
  {| status := n; body := b |}.

Definition Handler := Prog ProviderCall ChatCompletion.

(** ** server.ts *)

Definition getOpenAIClient (env : Env) : option OpenAI :=
  let apiKey := Js.or_else (OLLAMA_API_KEY env) (OPENAI_API_KEY env) in
  if negb (Js.truthy apiKey) && negb (Js.truthy (OLLAMA_BASE_URL env)) then None
  else Some {| apiKey := Js.or_default apiKey "dummy-key-for-ollama";
               baseURL := Js.or_else (OLLAMA_BASE_URL env) None |}.

Definition getHFClient (env : Env) : option HfInference :=
  match HUGGINGFACE_API_KEY env with
  | Some hfKey => if Js.truthy_string hfKey then Some {| accessToken := hfKey |} else None
  | None => None
  end.

(** [[...messages].reverse().find(m => m.role === 'user')] *)
Definition lastUserMsg (messages : list ChatMessage) : option ChatMessage :=
  find (fun m => MessageRole_eqb (role m) user) (rev messages).

(** One step of the [forEach] over the parts of the last user message:
    the state is [(lastImage, lastText)]. *)
Definition scan_part (st : option Image * string) (p : MessagePart)
  : option Image * string :=
  let '(lastImage, lastText) := st in
  let lastImage := match image p with Some i => Some i | None => lastImage end in
  let lastText := if Js.truthy (text p) then Js.or_default (text p) "" else lastText in
  (lastImage, lastText).

Definition scan_last (messages : list ChatMessage) : option Image * string :=
  match lastUserMsg messages with
  | Some m => fold_left scan_part (parts m) (None, "")
  | None => (None, "")
  end.

(** [`data:${mimeType};base64,${data}`] *)
Definition data_uri (i : Image) : string :=
  "data:" ++ mimeType i ++ ";base64," ++ data i.

(** The part mapper shared by the multimodal Hugging Face request and the
    OpenAI request (lines 82-92 and 114-124). *)
Definition vision_part (part : MessagePart) : ContentPart :=
  match image part with
  | Some i => image_url (data_uri i)
  | None => text_part (Js.or_default (text part) "")
  end.

Definition vision_message (msg : ChatMessage) : OutMessage :=
  {| out_role := role_string (role msg);
     content := content_parts (map vision_part (parts msg)) |}.

(** The message mapper of the text-only request (line 70). *)
Definition text_message (m : ChatMessage) : OutMessage :=
  {| out_role := role_string (role m);
     content := content_string
       (Js.join " " (map (fun p => Js.or_default (text p) "") (parts m))) |}.

Definition system_message (full : string) : OutMessage :=
  {| out_role := "system"; content := content_string full |}.

Definition HF_MODEL : string := "meta-llama/Llama-3.2-11B-Vision-Instruct".

Definition hf_text_request (full : string) (messages : list ChatMessage) : ChatRequest :=
  {| req_model := HF_MODEL;
     req_messages := system_message full :: map text_message messages;
     max_tokens := 500 |}.

Definition hf_vision_request (full : string) (messages : list ChatMessage) : ChatRequest :=
  {| req_model := HF_MODEL;
     req_messages := system_message full :: map vision_message messages;
     max_tokens := 1000 |}.

Definition openai_request (isOllama : bool) (full : string)
    (messages : list ChatMessage) : ChatRequest :=
  {| req_model := if isOllama then "llava" else "gpt-4o";
     req_messages := system_message full :: map vision_message messages;
     max_tokens := 1000 |}.

(** [response.choices[0].message.content] *)
Definition first_choice_content (response : ChatCompletion) : Handler (option string) :=
  match choices response with
  | c :: _ => Done (message_content (message c))
  | [] => Throw Js.TypeError_reading_message
  end.

(** The body of the inner [try] (lines 52-99). *)
Definition hf_path (hf : HfInference) (full : string)
    (messages : list ChatMessage) : Handler HttpResponse :=
  let '(lastImage, lastText) := scan_last messages in
  match lastImage with
  | None =>
      response <- await (hf_chatCompletion hf (hf_text_request full messages)) ;;
      t <- first_choice_content response ;;
      Done (res_json (json_text t))
  | Some _ =>
      response <- await (hf_chatCompletion hf (hf_vision_request full messages)) ;;
      t <- first_choice_content response ;;
      Done (res_json (json_text t))
  end.

(** The inner [catch (hfError)] (lines 100-105). *)
Definition hf_catch (hfError : Js.Error) : Handler HttpResponse :=
  Done (res_status_json 500
          (json_error ("Hugging Face Error: " ++ Js.error_message hfError))).

(** Lines 109-136. *)
Definition openai_path (env : Env) (openai : OpenAI) (full : string)
    (messages : list ChatMessage) : Handler HttpResponse :=
  let isOllama := Js.truthy (OLLAMA_BASE_URL env) in
  response <- await (openai_chat_completions_create openai
                       (openai_request isOllama full messages)) ;;
  t <- first_choice_content response ;;
  Done (res_json (json_text t)).

Definition NO_KEYS : string :=
  "No API keys configured. Please set HUGGINGFACE_API_KEY, OPENAI_API_KEY, or OLLAMA_BASE_URL.".

(** The outer [catch (error)] (lines 139-142). *)
Definition outer_catch (error : Js.Error) : Handler HttpResponse :=
  Done (res_status_json 500
          (json_error (Js.or_default (Some (Js.error_message error))
                         "An unexpected error occurred."))).

(** [app.post("/api/analyze", ...)] on a body
    [{ messages, systemInstruction, language }]. *)
Definition analyze (env : Env) (messages : list ChatMessage)
    (systemInstruction language : string) : Handler HttpResponse :=
  try_catch
    (let hf := getHFClient env in
     let openai := getOpenAIClient env in
     if Js.is_null hf && Js.is_null openai then
       Done (res_status_json 500 (json_error NO_KEYS))
     else
       let full := fullSystemInstruction systemInstruction language in
       match hf with
       | Some hf => try_catch (hf_path hf full messages) hf_catch
       | None =>
           match openai with
           | Some openai => openai_path env openai full messages
           | None =>
               Done (res_status_json 500
                       (json_error "No provider available to handle the request."))
           end
       end)
    outer_catch.

(** ** services/gemini.ts *)

Module Gemini.

Inductive Part :=
| inlineData (data mimeType : string)   (* { inlineData: { data, mimeType } } *)
| text_only (t : string).               (* { text } *)

Record ContentItem := { content_role : string; content_parts : list Part }.

Record Config := { systemInstruction : string; temperature : Q }.

Record GenerateContentParameters := {
  model : string;
  contents : list ContentItem;
  config : Config
}.

(** [response.text]: the accessor of the SDK's response object, undefined
    when the first candidate carries no text. *)
Record GenerateContentResponse := { response_text : option string }.

Record GoogleGenAI := { apiKey : string }.

(** The SDK offers a one-shot call and a streaming one. *)
Inductive Call :=
| models_generateContent (ai : GoogleGenAI) (p : GenerateContentParameters)
| models_generateContentStream (ai : GoogleGenAI) (p : GenerateContentParameters).

Definition GEMINI_MODEL : string := "gemini-3-flash-preview".

Definition SUBSTITUTE : string := "I'm sorry, I couldn't analyze that image.".

Definition to_part (part : MessagePart) : Part :=
  match image part with
  | Some i => inlineData (data i) (mimeType i)
  | None => text_only (Js.or_default (text part) "")
  end.

Definition to_content (msg : ChatMessage) : ContentItem :=
  {| content_role := if MessageRole_eqb (role msg) assistant then "model" else "user";
     content_parts := map to_part (parts msg) |}.

Definition request (messages : list ChatMessage) (full : string)
  : GenerateContentParameters :=
  {| model := GEMINI_MODEL;
     contents := map to_content messages;
     config := {| systemInstruction := full; temperature := (7 # 10)%Q |} |}.

(** [analyzeImageAndChat(messages, systemInstruction, language = "English")];
    an omitted [language] is [None]. *)
Definition analyzeImageAndChat (env : Env) (messages : list ChatMessage)
    (systemInstruction : string) (language : option string)
  : Prog Call GenerateContentResponse string :=
  let language := match language with Some l => l | None => "English" end in
  match GEMINI_API_KEY env with
  | Some apiKey =>
      if Js.truthy_string apiKey then
        let ai := {| apiKey := apiKey |} in
        let full := fullSystemInstruction systemInstruction language in
        response <- await (models_generateContent ai (request messages full)) ;;
        Done (Js.or_default (response_text response) SUBSTITUTE)
      else Throw {| Js.error_message := "GEMINI_API_KEY is not configured." |}
  | None => Throw {| Js.error_message := "GEMINI_API_KEY is not configured." |}
  end.

End Gemini.

(** ** Observations used in the statements *)

(** What the caller receives once the Hugging Face call has settled:
    the inner [try]/[catch] turns a rejection, and the [TypeError] of
    reading [choices[0].message] on an empty [choices], into a 500. *)
Definition hf_reply (s : Settled ChatCompletion) : HttpResponse :=
  match s with
  | Fulfilled response =>
      match choices response with
      | c :: _ => res_json (json_text (message_content (message c)))
      | [] => res_status_json 500
                (json_error ("Hugging Face Error: "
                             ++ Js.error_message Js.TypeError_reading_message))
      end
  | Rejected e =>
      res_status_json 500 (json_error ("Hugging Face Error: " ++ Js.error_message e))
  end.

(** The same for the OpenAI call, whose failures reach the outer [catch]. *)
Definition openai_reply (s : Settled ChatCompletion) : HttpResponse :=
  match s with
  | Fulfilled response =>
      match choices response with
      | c :: _ => res_json (json_text (message_content (message c)))
      | [] => res_status_json 500
                (json_error (Js.error_message Js.TypeError_reading_message))
      end
  | Rejected e =>
      res_status_json 500
        (json_error (Js.or_default (Some (Js.error_message e))
                       "An unexpected error occurred."))
  end.

(** [needle] occurs in [hay]. *)
Definition mentions (needle hay : string) : Prop :=
  exists pre post : string, hay = (pre ++ needle ++ post)%string.

(** [s] ends in [suffix]. *)
Definition ends_in (suffix s : string) : Prop :=
  exists pre : string, s = (pre ++ suffix)%string.

Definition is_image_url (c : ContentPart) : bool :=
  match c with
  | image_url _ => true
  | text_part _ => false
  end.

(** An outbound message carries an image payload when its content is an
    array holding an [image_url] entry. *)
Definition carries_image (m : OutMessage) : bool :=
  match content m with
  | content_string _ => false
  | content_parts ps => existsb is_image_url ps
  end.

(** The calls a handler makes against [world], and how it completes. *)
Definition calls_of {E R A} (world : E -> Settled R) (p : Prog E R A) : list E :=
  fst (run world p).

Definition result_of {E R A} (world : E -> Settled R) (p : Prog E R A) : Completion A :=
  snd (run world p).

(** A world in which every provider answers with one choice carrying [t]. *)
Definition answering (t : string) : ProviderCall -> Settled ChatCompletion :=
  fun _ => Fulfilled {| choices := [ {| message := {| message_content := Some t |} |} ] |}.

(** A world in which every provider call is rejected with [msg]. *)
Definition rejecting (msg : string) : ProviderCall -> Settled ChatCompletion :=
  fun _ => Rejected {| Js.error_message := msg |}.

(** The request a provider call carries. *)
Definition request_of (c : ProviderCall) : ChatRequest :=
  match c with
  | hf_chatCompletion _ req => req
  | openai_chat_completions_create _ req => req
  end.

(** The parameters a Gemini call carries. *)
Definition gemini_parameters_of (c : Gemini.Call) : Gemini.GenerateContentParameters :=
  match c with
  | Gemini.models_generateContent _ p => p
  | Gemini.models_generateContentStream _ p => p
  end.

(** What [analyzeImageAndChat] completes with once its call has settled. *)
Definition gemini_reply (s : Settled Gemini.GenerateContentResponse) : Completion string :=
  match s with
  | Fulfilled response => Returned (Js.or_default (Gemini.response_text response) Gemini.SUBSTITUTE)
  | Rejected e => Threw e
  end.

(** The default of the [language] parameter. *)
Definition language_or_English (language : option string) : string :=
  match language with
  | Some l => l
  | None => "English"
  end.

(** The message with the image of every part removed. *)
Definition without_images (m : ChatMessage) : ChatMessage :=
  {| id := id m; role := role m;
     parts := map (fun p => {| text := text p; image := None |}) (parts m);
     timestamp := timestamp m |}.

(** The message with the text removed from every part that has an image. *)
Definition without_captions (m : ChatMessage) : ChatMessage :=
  {| id := id m; role := role m;
     parts := map (fun p =>
                     match image p with
                     | Some i => {| text := None; image := Some i |}
                     | None => p
                     end)
                  (parts m);
     timestamp := timestamp m |}.

(** ** Concrete inputs *)

(** Only the Hugging Face key is set. *)
Definition env_hf_only : Env :=
  {| HUGGINGFACE_API_KEY := Some "hf_token"; OLLAMA_API_KEY := None;
     OPENAI_API_KEY := None; OLLAMA_BASE_URL := None; GEMINI_API_KEY := None |}.

(** Hugging Face and OpenAI keys are both set. *)
Definition env_hf_and_openai : Env :=
  {| HUGGINGFACE_API_KEY := Some "hf_token"; OLLAMA_API_KEY := None;
     OPENAI_API_KEY := Some "sk-key"; OLLAMA_BASE_URL := None; GEMINI_API_KEY := None |}.

(** Only an OpenAI key. *)
Definition env_openai_only : Env :=
  {| HUGGINGFACE_API_KEY := None; OLLAMA_API_KEY := None;
     OPENAI_API_KEY := Some "sk-key"; OLLAMA_BASE_URL := None; GEMINI_API_KEY := None |}.

(** Only a local Ollama endpoint. *)
Definition env_ollama_only : Env :=
  {| HUGGINGFACE_API_KEY := None; OLLAMA_API_KEY := None;
     OPENAI_API_KEY := None; OLLAMA_BASE_URL := Some "http://localhost:11434/v1";
     GEMINI_API_KEY := None |}.

(** Nothing is set; a variable set to the empty string counts as unset. *)
Definition env_empty : Env :=
  {| HUGGINGFACE_API_KEY := None; OLLAMA_API_KEY := Some "";
     OPENAI_API_KEY := None; OLLAMA_BASE_URL := None; GEMINI_API_KEY := None |}.

(** Only the Gemini key. *)
Definition env_gemini : Env :=
  {| HUGGINGFACE_API_KEY := None; OLLAMA_API_KEY := None;
     OPENAI_API_KEY := None; OLLAMA_BASE_URL := None; GEMINI_API_KEY := Some "g-key" |}.

Definition png_AAA : Image := {| data := "AAA"; mimeType := "image/png" |}.

(** The scenario of the specification: one user turn with an image and a
    question. *)
Definition scenario : list ChatMessage :=
  [ {| id := "1"; role := user;
       parts := [ {| text := None; image := Some png_AAA |};
                  {| text := Some "What is this?"; image := None |} ];
       timestamp := 0 |} ].

(** An earlier picture, an answer, then a follow-up question without one. *)
Definition follow_up : list ChatMessage :=
  [ {| id := "1"; role := user;
       parts := [ {| text := None; image := Some png_AAA |};
                  {| text := Some "What is this?"; image := None |} ];
       timestamp := 0 |};
    {| id := "2"; role := assistant;
       parts := [ {| text := Some "A cat."; image := None |} ];
       timestamp := 1 |};
    {| id := "3"; role := user;
       parts := [ {| text := Some "What colour?"; image := None |};
                  {| text := Some "Be brief."; image := None |} ];
       timestamp := 2 |} ].

(** An earlier picture from the user, and a later user turn with another. *)
Definition two_pictures : list ChatMessage :=
  [ {| id := "1"; role := user;
       parts := [ {| text := None; image := Some png_AAA |} ];
       timestamp := 0 |};
    {| id := "2"; role := assistant;
       parts := [ {| text := Some "A cat."; image := None |} ];
       timestamp := 1 |};
    {| id := "3"; role := user;
       parts := [ {| text := Some "And this?"; image := None |};
                  {| text := None; image := Some {| data := "BBB"; mimeType := "image/jpeg" |} |} ];
       timestamp := 2 |} ].

(** Only assistant turns. *)
Definition no_user_turn : list ChatMessage :=
  [ {| id := "1"; role := assistant;
       parts := [ {| text := Some "Hello."; image := Some png_AAA |} ];
       timestamp := 0 |} ].

(** Hugging Face is down while OpenAI would answer. *)
Definition hf_down (msg answer : string) : ProviderCall -> Settled ChatCompletion :=
  fun c =>
    match c with
    | hf_chatCompletion _ _ => Rejected {| Js.error_message := msg |}
    | openai_chat_completions_create _ _ =>
        Fulfilled {| choices := [ {| message := {| message_content := Some answer |} |} ] |}
    end.

(** Hugging Face answers with no choice at all. *)
Definition hf_no_choice (answer : string) : ProviderCall -> Settled ChatCompletion :=
  fun c =>
    match c with
    | hf_chatCompletion _ _ => Fulfilled {| choices := [] |}
    | openai_chat_completions_create _ _ =>
        Fulfilled {| choices := [ {| message := {| message_content := Some answer |} |} ] |}
    end.

(** Gemini answers with [t] as the response's text. *)
Definition gemini_answering (t : option string)
  : Gemini.Call -> Settled Gemini.GenerateContentResponse :=
  fun _ => Fulfilled {| Gemini.response_text := t |}.

(** ** More of the JavaScript string library *)

Module JsString.

(** [c] occurs in [s]. *)
Fixpoint occurs (c : ascii) (s : string) : bool :=
  match s with
  | EmptyString => false
  | String d s' => Ascii.eqb c d || occurs c s'
  end.

(** The scan of [s.split(sep)] for a non-empty [sep]: [skip] counts the
    characters of a separator found that are still to be passed over,
    [cur] is the piece read since the last separator. *)
Fixpoint split_scan (sep s : string) (skip : nat) (cur : string) : list string :=
  match s with
  | EmptyString => [cur]
  | String c s' =>
      match skip with
      | S k => split_scan sep s' k cur
      | O =>
          if String.prefix sep s
          then cur :: split_scan sep s' (String.length sep - 1) ""
          else split_scan sep s' 0 (cur ++ String c "")
      end
  end.

(** [s.split(sep)]; an empty separator splits between all characters. *)
Definition split (sep s : string) : list string :=
  match sep with
  | EmptyString => map (fun c => String c "") (list_ascii_of_string s)
  | String _ _ => split_scan sep s 0 ""
  end.

(** [n.toString()] for an integer [n] (below 10^21 in absolute value,
    where JavaScript still prints all digits). *)
Definition Number_toString (n : Z) : string :=
  NilZero.string_of_int (Z.to_int n).

(** The double quote character. *)
Definition DQUOTE : string := String (ascii_of_nat 34) EmptyString.

End JsString.

(** ** App.tsx *)

Module Client.

Definition SYSTEM_INSTRUCTION : string :=
  "You are VisionTalk, an AI-powered conversational assistant designed for visually impaired users. " ++ Js.LF ++
  "Your task is to receive images uploaded by the user, analyze the content, and provide detailed, meaningful descriptions. " ++ Js.LF ++
  "Engage in a conversation about the image in a natural, human-like manner, answering questions, providing context, and giving insights about objects, scenes, text, colors, emotions, or activities present in the image. " ++ Js.LF ++
  "Make your responses clear, concise, and accessible, focusing on providing maximum helpful information for visually impaired users." ++ Js.LF ++
  "Always start with a general overview of the image if it's the first time you see it." ++ Js.LF ++
  "Be descriptive but avoid being overly verbose unless asked." ++ Js.LF ++
  "Focus on spatial relationships (e.g., " ++ JsString.DQUOTE ++ "to the left of the tree is a bench" ++ JsString.DQUOTE ++ ").".

(** The component's state (the [useState] cells). *)
Record AppState := {
  messages : list ChatMessage;
  inputText : string;
  selectedImage : option Image;
  isAnalyzing : bool;
  error : option string;
  selectedLanguage : string;
  showLangMenu : bool;
  showDownloadMenu : bool
}.

(** The value given to [JSON.stringify] as the body of the request. *)
Record AnalyzeBody := {
  body_messages : list ChatMessage;
  body_systemInstruction : string;
  body_language : string
}.

(** [fetch(url, { method, headers: { 'Content-Type': ... }, body })] *)
Record FetchRequest := {
  url : string;
  method : string;
  content_type : string;
  fetch_body : AnalyzeBody
}.

(** The [Response] of [fetch]: its [ok] flag and what [json()] settles to. *)
Record Response := { ok : bool; json : Settled JsonBody }.

(** [data.error] and [data.text] on a parsed body. *)
Definition error_field (b : JsonBody) : option string :=
  match b with
  | json_error e => Some e
  | json_text _ => None
  end.

Definition text_field (b : JsonBody) : option string :=
  match b with
  | json_text t => t
  | json_error _ => None
  end.

(** A handler of the component: it finishes, throws, reads the clock
    ([Date.now()]) or awaits a [fetch]. *)
Inductive Eff (A : Type) :=
| Ret (a : A)
| Raise (e : Js.Error)
| Date_now (k : Z -> Eff A)
| Fetch (req : FetchRequest) (k : Settled Response -> Eff A).

Arguments Ret {A} a.
Arguments Raise {A} e.
Arguments Date_now {A} k.
Arguments Fetch {A} req k.

Fixpoint bind {A B} (p : Eff A) (f : A -> Eff B) : Eff B :=
  match p with
  | Ret a => f a
  | Raise e => Raise e
  | Date_now k => Date_now (fun t => bind (k t) f)
  | Fetch req k => Fetch req (fun s => bind (k s) f)
  end.

(** [try { p } catch (err) { h err }] *)
Fixpoint try_catch {A} (p : Eff A) (h : Js.Error -> Eff A) : Eff A :=
  match p with
  | Ret a => Ret a
  | Raise e => h e
  | Date_now k => Date_now (fun t => try_catch (k t) h)
  | Fetch req k => Fetch req (fun s => try_catch (k s) h)
  end.

Definition now : Eff Z := Date_now (fun t => Ret t).

(** [await fetch(...)] *)
Definition await_fetch (req : FetchRequest) : Eff Response :=
  Fetch req (fun s =>
    match s with
    | Fulfilled r => Ret r
    | Rejected e => Raise e
    end).

(** [await response.json()] *)
Definition await_json (response : Response) : Eff JsonBody :=
  match json response with
  | Fulfilled b => Ret b
  | Rejected e => Raise e
  end.

(** The outside of the component: the [n]-th reading of the clock and the
    outcome of each request. *)
Record World := {
  clock : nat -> Z;
  network : FetchRequest -> Settled Response
}.

(** Running a handler from the [n]-th clock reading on: the requests
    sent, in order, and how the handler completed. *)
Fixpoint run {A} (w : World) (n : nat) (p : Eff A) : list FetchRequest * Completion A :=
  match p with
  | Ret a => ([], Returned a)
  | Raise e => ([], Threw e)
  | Date_now k => run w (S n) (k (clock w n))
  | Fetch req k =>
      let '(sent, r) := run w n (k (network w req)) in
      (req :: sent, r)
  end.

(** [handleImageUpload]'s [reader.onload], for a file of type [file_type]
    whose data URL is [result].  [None] when [result] has no ";base64,":
    the image would then be stored with an undefined [data], which the
    typed state cannot hold. *)
Definition handleImageUpload_onload (file_type result : string) (st : AppState)
  : option AppState :=
  match JsString.split ";base64," result with
  | _mimeType :: data :: _ =>
      Some {| messages := messages st;
              inputText := inputText st;
              selectedImage := Some {| data := data; mimeType := file_type |};
              isAnalyzing := isAnalyzing st;
              error := error st;
              selectedLanguage := selectedLanguage st;
              showLangMenu := showLangMenu st;
              showDownloadMenu := showDownloadMenu st |}
  | _ => None
  end.

(** [removeImage] (the reset of the file input is not state). *)
Definition removeImage (st : AppState) : AppState :=
  {| messages := messages st;
     inputText := inputText st;
     selectedImage := None;
     isAnalyzing := isAnalyzing st;
     error := error st;
     selectedLanguage := selectedLanguage st;
     showLangMenu := showLangMenu st;
     showDownloadMenu := showDownloadMenu st |}.

Section WithTrim.

(** [String.prototype.trim]. *)
Variable trim : string -> string.

(** The state after the five setters that precede the [try]. *)
Definition sending (st : AppState) (updatedMessages : list ChatMessage) : AppState :=
  {| messages := updatedMessages;
     inputText := "";
     selectedImage := None;
     isAnalyzing := true;
     error := None;
     selectedLanguage := selectedLanguage st;
     showLangMenu := showLangMenu st;
     showDownloadMenu := showDownloadMenu st |}.

(** [setMessages(prev => [...prev, assistantMessage])] *)
Definition append_message (st : AppState) (m : ChatMessage) : AppState :=
  {| messages := messages st ++ [m];
     inputText := inputText st;
     selectedImage := selectedImage st;
     isAnalyzing := isAnalyzing st;
     error := error st;
     selectedLanguage := selectedLanguage st;
     showLangMenu := showLangMenu st;
     showDownloadMenu := showDownloadMenu st |}.

Definition setError (st : AppState) (e : option string) : AppState :=
  {| messages := messages st;
     inputText := inputText st;
     selectedImage := selectedImage st;
     isAnalyzing := isAnalyzing st;
     error := e;
     selectedLanguage := selectedLanguage st;
     showLangMenu := showLangMenu st;
     showDownloadMenu := showDownloadMenu st |}.

Definition setIsAnalyzing (st : AppState) (b : bool) : AppState :=
  {| messages := messages st;
     inputText := inputText st;
     selectedImage := selectedImage st;
     isAnalyzing := b;
     error := error st;
     selectedLanguage := selectedLanguage st;
     showLangMenu := showLangMenu st;
     showDownloadMenu := showDownloadMenu st |}.

(** The parts of the user message (lines 120-126). *)
Definition userParts (st : AppState) : list MessagePart :=
  let userParts := [] in
  let userParts :=
    match selectedImage st with
    | Some img => userParts ++ [ {| text := None; image := Some img |} ]
    | None => userParts
    end in
  if Js.truthy_string (trim (inputText st))
  then userParts ++ [ {| text := Some (trim (inputText st)); image := None |} ]
  else userParts.

Definition analyze_request (updatedMessages : list ChatMessage) (language : string)
  : FetchRequest :=
  {| url := "/api/analyze";
     method := "POST";
     content_type := "application/json";
     fetch_body := {| body_messages := updatedMessages;
                      body_systemInstruction := SYSTEM_INSTRUCTION;
                      body_language := language |} |}.

(** [handleSendMessage], run from the state [st] its closure was created
    in, with no other update of the state while it runs.  The [try] block
    changes the state in its last statement only, so the [catch] block
    works on the state the [try] was entered with. *)
Definition handleSendMessage (st : AppState) : Eff AppState :=
  if negb (Js.truthy_string (trim (inputText st))) && Js.is_null (selectedImage st)
  then Ret st
  else
    bind now (fun id_at =>
    bind now (fun timestamp_at =>
    let userMessage :=
      {| id := JsString.Number_toString id_at;
         role := user;
         parts := userParts st;
         timestamp := timestamp_at |} in
    let updatedMessages := messages st ++ [userMessage] in
    let st1 := sending st updatedMessages in
    bind
      (try_catch
         (bind (await_fetch (analyze_request updatedMessages (selectedLanguage st)))
            (fun response =>
               if negb (ok response) then
                 bind (await_json response) (fun errorData =>
                   Raise {| Js.error_message :=
                              Js.or_default (error_field errorData)
                                "Failed to analyze image." |})
               else
                 bind (await_json response) (fun data =>
                   let responseText := text_field data in
                   bind now (fun id_at' =>
                   bind now (fun timestamp_at' =>
                   let assistantMessage :=
                     {| id := JsString.Number_toString (id_at' + 1);
                        role := assistant;
                        parts := [ {| text := responseText; image := None |} ];
                        timestamp := timestamp_at' |} in
                   Ret (append_message st1 assistantMessage))))))
         (fun err =>
            Ret (setError st1
                   (Some (Js.or_default (Some (Js.error_message err))
                            "Failed to analyze image. Please try again.")))))
      (fun st2 => Ret (setIsAnalyzing st2 false)))).

End WithTrim.

(** What [fetch] makes of an HTTP response: [ok] is a status from 200 to
    299, and [json()] yields the JSON body. *)
Definition http_response (r : HttpResponse) : Response :=
  {| ok := ((200 <=? status r)%Z && (status r <=? 299)%Z)%bool;
     json := Fulfilled (body r) |}.

(** The network carries each request to the [/api/analyze] handler of a
    server with environment [env] and providers [provider], and the
    handler's response back. *)
Definition delivers (net : FetchRequest -> Settled Response) (env : Env)
    (provider : ProviderCall -> Settled ChatCompletion) : Prop :=
  forall req r,
    result_of provider
      (analyze env (body_messages (fetch_body req))
         (body_systemInstruction (fetch_body req)) (body_language (fetch_body req)))
    = Returned r ->
    net req = Fulfilled (http_response r).

(** Such a network. *)
Definition served_by (env : Env) (provider : ProviderCall -> Settled ChatCompletion)
  : FetchRequest -> Settled Response :=
  fun req =>
    match result_of provider
            (analyze env (body_messages (fetch_body req))
               (body_systemInstruction (fetch_body req)) (body_language (fetch_body req)))
    with
    | Returned r => Fulfilled (http_response r)
    | Threw e => Rejected e
    end.

(** Trimming of blanks at both ends, for strings of letters and blanks. *)
Fixpoint trim_left (s : string) : string :=
  match s with
  | String " " s' => trim_left s'
  | _ => s
  end.

Definition reverse (s : string) : string :=
  string_of_list_ascii (rev (list_ascii_of_string s)).

Definition trim_blanks (s : string) : string :=
  reverse (trim_left (reverse (trim_left s))).

End Client.

(** ** App.tsx: downloadConversation *)

Module Download.

(** The calls made on the jsPDF document. *)
Inductive PdfOp :=
| setFontSize (size : Z)
| setFont (family style : string)
| text_at (s : string) (x y : Z)            (* doc.text(string, x, y) *)
| lines_at (ls : list string) (x y : Z)     (* doc.text(string[], x, y) *)
| addPage.


Section WithBuiltins.

(** Formatting of a time value by [Date], [JSON.stringify(messages, null, 2)]
    and jsPDF's line breaking are taken as given. *)
Variable toISOString : Z -> string.
Variable toLocaleString : Z -> string.
Variable toLocaleTimeString : Z -> string.
Variable JSON_stringify : list ChatMessage -> string.
Variable splitTextToSize : string -> Z -> list string.

Definition role_label (msg : ChatMessage) : string :=
  if MessageRole_eqb (role msg) user then "User" else "VisionTalk".

(** The text export, one part and one message at a time; [out] is the
    variable [text] of the source. *)
Definition txt_part (out : string) (part : MessagePart) : string :=
  let out :=
    if Js.truthy (text part)
    then (out ++ Js.or_default (text part) "" ++ Js.LF)%string
    else out in
  match image part with
  | Some _ => (out ++ "[Image Uploaded]" ++ Js.LF)%string
  | None => out
  end.

Definition txt_message (out : string) (msg : ChatMessage) : string :=
  let out :=
    (out ++ "[" ++ toLocaleTimeString (timestamp msg) ++ "] "
         ++ role_label msg ++ ":" ++ Js.LF)%string in
  let out := fold_left txt_part (parts msg) out in
  (out ++ Js.LF ++ "---" ++ Js.LF ++ Js.LF)%string.

Definition txt_export (now : Z) (messages : list ChatMessage) : string :=
  fold_left txt_message messages
    ("VisionTalk Conversation - " ++ toLocaleString now ++ Js.LF ++ Js.LF)%string.

(** The PDF export; the state is the cursor [y] and the calls made so far. *)
Definition pdf_part (st : Z * list PdfOp) (part : MessagePart) : Z * list PdfOp :=
  let '(y, doc) := st in
  let '(y, doc) :=
    if Js.truthy (text part) then
      let splitText := splitTextToSize (Js.or_default (text part) "") 170 in
      (y + (Z.of_nat (length splitText) * 5) + 5, doc ++ [lines_at splitText 20 y])
    else (y, doc) in
  let '(y, doc) :=
    match image part with
    | Some _ => (y + 10, doc ++ [text_at "[Image Uploaded]" 20 y])
    | None => (y, doc)
    end in
  if y >? 270 then (20, doc ++ [addPage]) else (y, doc).

Definition pdf_message (st : Z * list PdfOp) (msg : ChatMessage) : Z * list PdfOp :=
  let '(y, doc) := st in
  let doc := doc ++ [setFont "helvetica" "bold"; text_at (role_label msg ++ ":")%string 20 y] in
  let y := y + 5 in
  let doc := doc ++ [setFont "helvetica" "normal"] in
  let '(y, doc) := fold_left pdf_part (parts msg) (y, doc) in
  (y + 5, doc).

Definition pdf_export (now : Z) (messages : list ChatMessage) : list PdfOp :=
  let y := 20 in
  let doc := [setFontSize 16; text_at "VisionTalk Conversation" 20 y] in
  let y := y + 10 in
  let doc := doc ++ [setFontSize 10; text_at ("Date: " ++ toLocaleString now)%string 20 y] in
  let y := y + 15 in
  snd (fold_left pdf_message messages (y, doc)).




End WithBuiltins.

(** The cursor of a drawing call. *)
Definition drawn_at (op : PdfOp) : option Z :=
  match op with
  | text_at _ _ y => Some y
  | lines_at _ _ y => Some y
  | _ => None
  end.

(** Every drawing call starts between 20 and 280. *)
Definition on_page (op : PdfOp) : Prop :=
  match drawn_at op with
  | Some y => 20 <= y <= 280
  | None => True
  end.

(** The lines one part contributes to the text export. *)
Definition part_lines (part : MessagePart) : string :=
  (match text part with
   | Some (String c t) => String c t ++ Js.LF
   | _ => ""
   end
   ++ match image part with
      | Some _ => "[Image Uploaded]" ++ Js.LF
      | None => ""
      end)%string.


(** The message with every image replaced through [g]. *)
Definition map_images (g : Image -> Image) (m : ChatMessage) : ChatMessage :=
  {| id := id m; role := role m;
     parts := map (fun p => {| text := text p; image := option_map g (image p) |}) (parts m);
     timestamp := timestamp m |}.

Definition locale_example (t : Z) : string := "1/2/2026, 3:04:05 AM".
Definition time_example (t : Z) : string := "3:04:05 AM".
Definition one_line (s : string) (width : Z) : list string := [s].

End Download.

(** ** Observations on the client *)

(** The handler has something to send: a non-blank input or an image. *)
Definition sendable (trim : string -> string) (st : Client.AppState) : bool :=
  Js.truthy_string (trim (Client.inputText st)) || negb (Js.is_null (Client.selectedImage st)).

(** The user message built when the clock is at its [n]-th reading. *)
Definition sent_message (trim : string -> string) (w : Client.World) (n : nat)
    (st : Client.AppState) : ChatMessage :=
  {| id := JsString.Number_toString (Client.clock w n);
     role := user;
     parts := Client.userParts trim st;
     timestamp := Client.clock w (S n) |}.

(** The request that carries it. *)
Definition sent_request (trim : string -> string) (w : Client.World) (n : nat)
    (st : Client.AppState) : Client.FetchRequest :=
  {| Client.url := "/api/analyze";
     Client.method := "POST";
     Client.content_type := "application/json";
     Client.fetch_body :=
       {| Client.body_messages := Client.messages st ++ [sent_message trim w n st];
          Client.body_systemInstruction := Client.SYSTEM_INSTRUCTION;
          Client.body_language := Client.selectedLanguage st |} |}.

(** A state with an image selected and a question typed. *)
Definition asking (img : option Image) (input : string) (history : list ChatMessage)
  : Client.AppState :=
  {| Client.messages := history; Client.inputText := input;
     Client.selectedImage := img; Client.isAnalyzing := false;
     Client.error := None; Client.selectedLanguage := "French";
     Client.showLangMenu := false; Client.showDownloadMenu := false |}.

(** A message the PDF export lays out within the page: it has a part, and
    no part has both a text and an image. *)
Definition printable (m : ChatMessage) : Prop :=
  parts m <> []
  /\ forall p, In p (parts m) -> Js.truthy (text p) = false \/ image p = None.

(** A clock that advances by one millisecond at each reading. *)
Definition ticking (start : Z) : nat -> Z := fun n => start + Z.of_nat n.

(** * Properties *)

(** ** The handler on concrete requests *)

Example analyze_openai_only :
  run (answering "A cat.") (analyze env_openai_only scenario "Describe." "French")
  = ([ openai_chat_completions_create
         {| apiKey := "sk-key"; baseURL := None |}
         {| req_model := "gpt-4o";
            req_messages :=
              [ {| out_role := "system";
                   content := content_string (fullSystemInstruction "Describe." "French") |};
                {| out_role := "user";
                   content := content_parts
                     [ image_url "data:image/png;base64,AAA"; text_part "What is this?" ] |} ];
            max_tokens := 1000 |} ],
     Returned {| status := 200; body := json_text (Some "A cat.") |}).
Proof. reflexivity. Qed.

Example analyze_ollama_only :
  calls_of (answering "A cat.") (analyze env_ollama_only [] "Describe." "French")
  = [ openai_chat_completions_create
        {| apiKey := "dummy-key-for-ollama"; baseURL := Some "http://localhost:11434/v1" |}
        {| req_model := "llava";
           req_messages :=
             [ {| out_role := "system";
                  content := content_string (fullSystemInstruction "Describe." "French") |} ];
           max_tokens := 1000 |} ].
Proof. reflexivity. Qed.

(** A failure on the OpenAI path reaches the outer [catch]. *)
Example analyze_openai_rejected :
  result_of (rejecting "401 Unauthorized")
    (analyze env_openai_only scenario "Describe." "French")
  = Returned {| status := 500; body := json_error "401 Unauthorized" |}.
Proof. reflexivity. Qed.

Example analyze_openai_rejected_without_message :
  result_of (rejecting "") (analyze env_openai_only scenario "Describe." "French")
  = Returned {| status := 500; body := json_error "An unexpected error occurred." |}.
Proof. reflexivity. Qed.

(** The text-only request: an image part contributes the empty string, and
    the parts are joined by a space. *)
Example follow_up_request :
  calls_of (answering "Grey.") (analyze env_hf_only follow_up "Describe." "French")
  = [ hf_chatCompletion {| accessToken := "hf_token" |}
        {| req_model := "meta-llama/Llama-3.2-11B-Vision-Instruct";
           req_messages :=
             [ {| out_role := "system";
                  content := content_string (fullSystemInstruction "Describe." "French") |};
               {| out_role := "user"; content := content_string " What is this?" |};
               {| out_role := "assistant"; content := content_string "A cat." |};
               {| out_role := "user"; content := content_string "What colour? Be brief." |} ];
           max_tokens := 500 |} ].
Proof. reflexivity. Qed.

(** Without a user turn the image of an assistant turn is not looked at. *)
Example no_user_turn_request :
  run (answering "Hi.") (analyze env_hf_only no_user_turn "Describe." "French")
  = ([ hf_chatCompletion {| accessToken := "hf_token" |}
         {| req_model := "meta-llama/Llama-3.2-11B-Vision-Instruct";
            req_messages :=
              [ {| out_role := "system";
                   content := content_string (fullSystemInstruction "Describe." "French") |};
                {| out_role := "assistant"; content := content_string "Hello." |} ];
            max_tokens := 500 |} ],
     Returned {| status := 200; body := json_text (Some "Hi.") |}).
Proof. reflexivity. Qed.

Example fullSystemInstruction_French :
  fullSystemInstruction "Describe." "French"
  = ("Describe." ++ Js.LF ++ Js.LF
     ++ "IMPORTANT: You MUST provide your response in French.")%string.
Proof. reflexivity. Qed.

(** ** JavaScript helpers *)

Lemma or_default_empty (v : option string) :
  Js.or_default v "" = match v with Some s => s | None => "" end.
Proof. destruct v as [[|c s]|]; reflexivity. Qed.

Lemma truthy_Some (v : option string) :
  Js.truthy v = true -> exists s, v = Some s /\ Js.truthy_string s = true.
Proof.
  destruct v as [s|]; simpl; intros H; [eauto | discriminate].
Qed.

Lemma or_else_truthy (a b : option string) :
  Js.truthy (Js.or_else a b) = Js.truthy a || Js.truthy b.
Proof.
  unfold Js.or_else. destruct (Js.truthy a) eqn:Ha; simpl; [exact Ha | reflexivity].
Qed.

(** ** Which clients exist *)

Lemma getHFClient_truthy (env : Env) :
  Js.truthy (HUGGINGFACE_API_KEY env) = true ->
  exists key, HUGGINGFACE_API_KEY env = Some key
              /\ getHFClient env = Some {| accessToken := key |}.
Proof.
  intros H. destruct (truthy_Some _ H) as (key & Hk & Ht).
  exists key. split; [exact Hk|]. unfold getHFClient. now rewrite Hk, Ht.
Qed.

Lemma getHFClient_falsy (env : Env) :
  Js.truthy (HUGGINGFACE_API_KEY env) = false -> getHFClient env = None.
Proof.
  unfold getHFClient. destruct (HUGGINGFACE_API_KEY env) as [s|]; simpl; [|reflexivity].
  now intros ->.
Qed.

Lemma getHFClient_Some_truthy (env : Env) (hf : HfInference) :
  getHFClient env = Some hf -> Js.truthy (HUGGINGFACE_API_KEY env) = true.
Proof.
  unfold getHFClient. destruct (HUGGINGFACE_API_KEY env) as [s|]; simpl; [|discriminate].
  destruct (Js.truthy_string s); [reflexivity | discriminate].
Qed.

Lemma getOpenAIClient_None (env : Env) :
  getOpenAIClient env = None <->
  Js.truthy (OLLAMA_API_KEY env) = false
  /\ Js.truthy (OPENAI_API_KEY env) = false
  /\ Js.truthy (OLLAMA_BASE_URL env) = false.
Proof.
  unfold getOpenAIClient. rewrite or_else_truthy.
  destruct (Js.truthy (OLLAMA_API_KEY env)), (Js.truthy (OPENAI_API_KEY env)),
    (Js.truthy (OLLAMA_BASE_URL env)); simpl; split;
    try discriminate; try tauto; intros (? & ? & ?); discriminate.
Qed.

Lemma getOpenAIClient_Some (env : Env) :
  Js.truthy (OLLAMA_API_KEY env) || Js.truthy (OPENAI_API_KEY env)
    || Js.truthy (OLLAMA_BASE_URL env) = true ->
  exists openai, getOpenAIClient env = Some openai.
Proof.
  intros H. destruct (getOpenAIClient env) as [c|] eqn:E; [eauto|].
  apply getOpenAIClient_None in E. destruct E as (E1 & E2 & E3).
  rewrite E1, E2, E3 in H. discriminate.
Qed.

(** ** The three ways through the handler *)

Section Routes.

Variable env : Env.
Variable messages : list ChatMessage.
Variables systemInstruction language : string.
Variable world : ProviderCall -> Settled ChatCompletion.

Let full := fullSystemInstruction systemInstruction language.

(** No client at all: the guard of line 42 answers. *)
Lemma run_unconfigured :
  getHFClient env = None -> getOpenAIClient env = None ->
  run world (analyze env messages systemInstruction language)
  = ([], Returned (res_status_json 500 (json_error NO_KEYS))).
Proof.
  intros Hh Ho. unfold analyze. rewrite Hh, Ho. reflexivity.
Qed.

(** A Hugging Face client, text-only branch. *)
Lemma run_hf_text (hf : HfInference) (lastText : string) :
  getHFClient env = Some hf ->
  scan_last messages = (None, lastText) ->
  let call := hf_chatCompletion hf (hf_text_request full messages) in
  run world (analyze env messages systemInstruction language)
  = ([call], Returned (hf_reply (world call))).
Proof.
  intros Hh Hs call. unfold analyze. rewrite Hh. simpl.
  unfold hf_path. rewrite Hs. simpl. fold full. fold call.
  destruct (world call) as [response|e]; simpl; [|reflexivity].
  unfold first_choice_content. destruct (choices response); reflexivity.
Qed.

(** A Hugging Face client, multimodal branch. *)
Lemma run_hf_vision (hf : HfInference) (lastImage : Image) (lastText : string) :
  getHFClient env = Some hf ->
  scan_last messages = (Some lastImage, lastText) ->
  let call := hf_chatCompletion hf (hf_vision_request full messages) in
  run world (analyze env messages systemInstruction language)
  = ([call], Returned (hf_reply (world call))).
Proof.
  intros Hh Hs call. unfold analyze. rewrite Hh. simpl.
  unfold hf_path. rewrite Hs. simpl. fold full. fold call.
  destruct (world call) as [response|e]; simpl; [|reflexivity].
  unfold first_choice_content. destruct (choices response); reflexivity.
Qed.

(** Either way exactly one Hugging Face call is made. *)
Lemma run_hf (hf : HfInference) :
  getHFClient env = Some hf ->
  exists req,
    (req = hf_text_request full messages \/ req = hf_vision_request full messages)
    /\ run world (analyze env messages systemInstruction language)
       = ([hf_chatCompletion hf req],
          Returned (hf_reply (world (hf_chatCompletion hf req)))).
Proof.
  intros Hh. destruct (scan_last messages) as [[i|] t] eqn:Hs.
  - eexists. split; [right; reflexivity|]. exact (run_hf_vision Hh Hs).
  - eexists. split; [left; reflexivity|]. exact (run_hf_text Hh Hs).
Qed.

(** No Hugging Face client but an OpenAI one. *)
Lemma run_openai (openai : OpenAI) :
  getHFClient env = None -> getOpenAIClient env = Some openai ->
  let call := openai_chat_completions_create openai
                (openai_request (Js.truthy (OLLAMA_BASE_URL env)) full messages) in
  run world (analyze env messages systemInstruction language)
  = ([call], Returned (openai_reply (world call))).
Proof.
  intros Hh Ho call. unfold analyze. rewrite Hh, Ho. simpl.
  unfold openai_path. simpl. fold full. fold call.
  destruct (world call) as [response|e]; simpl; [|reflexivity].
  unfold first_choice_content. destruct (choices response); reflexivity.
Qed.

End Routes.

(** ** Provider selection *)

(** C1.  Whenever HUGGINGFACE_API_KEY is present (a non-empty string), the
    handler makes exactly one outbound call, to the Hugging Face client
    built from that key, and no OpenAI call, whatever the OpenAI/Ollama
    variables are.  An OpenAI call is made only when HUGGINGFACE_API_KEY
    is absent and OLLAMA_API_KEY, OPENAI_API_KEY or OLLAMA_BASE_URL is
    present. *)
Theorem hf_has_priority
  (env : Env) (messages : list ChatMessage) (systemInstruction language : string)
  (world : ProviderCall -> Settled ChatCompletion) :
  let calls := calls_of world (analyze env messages systemInstruction language) in
  (Js.truthy (HUGGINGFACE_API_KEY env) = true ->
     exists key req,
       HUGGINGFACE_API_KEY env = Some key
       /\ calls = [hf_chatCompletion {| accessToken := key |} req]
       /\ existsb is_openai_call calls = false)
  /\ (forall c, In c calls -> is_openai_call c = true ->
        Js.truthy (HUGGINGFACE_API_KEY env) = false
        /\ (Js.truthy (OLLAMA_API_KEY env) = true
            \/ Js.truthy (OPENAI_API_KEY env) = true
            \/ Js.truthy (OLLAMA_BASE_URL env) = true)).
Proof.
  intros calls. subst calls. unfold calls_of. split.
  - intros H. destruct (getHFClient_truthy env H) as (key & Hk & Hc).
    destruct (run_hf env messages systemInstruction language world Hc) as (req & _ & Hr).
    exists key, req. rewrite Hr. simpl. auto.
  - intros c Hin Hc.
    destruct (getHFClient env) as [hf|] eqn:Hh.
    + destruct (run_hf env messages systemInstruction language world Hh) as (req & _ & Hr).
      rewrite Hr in Hin. simpl in Hin. destruct Hin as [<-|[]]. discriminate.
    + destruct (getOpenAIClient env) as [openai|] eqn:Ho.
      * split.
        { destruct (Js.truthy (HUGGINGFACE_API_KEY env)) eqn:Ht; [|reflexivity].
          destruct (getHFClient_truthy env Ht) as (? & _ & Hc'). congruence. }
        { destruct (Js.truthy (OLLAMA_API_KEY env)) eqn:E1; [auto|].
          destruct (Js.truthy (OPENAI_API_KEY env)) eqn:E2; [auto|].
          destruct (Js.truthy (OLLAMA_BASE_URL env)) eqn:E3; [auto|].
          assert (getOpenAIClient env = None) by (apply getOpenAIClient_None; auto).
          congruence. }
      * rewrite (run_unconfigured env messages systemInstruction language world Hh Ho) in Hin.
        destruct Hin.
Qed.

Lemma hf_has_priority_witness :
  exists key req,
    HUGGINGFACE_API_KEY env_hf_and_openai = Some key
    /\ calls_of (answering "A cat.")
         (analyze env_hf_and_openai scenario "Describe." "French")
       = [hf_chatCompletion {| accessToken := key |} req]
    /\ existsb is_openai_call
         (calls_of (answering "A cat.")
            (analyze env_hf_and_openai scenario "Describe." "French")) = false.
Proof.
  apply (proj1 (hf_has_priority env_hf_and_openai scenario "Describe." "French"
                  (answering "A cat."))).
  reflexivity.
Defined.

(** C2.  When the Hugging Face adapter is selected, its call is the only
    call the handler makes, whatever the OpenAI/Ollama configuration is
    and whatever the OpenAI provider would answer; and when that call
    fails (the promise rejects, or the response has no choice to read),
    the caller gets a 500 whose error is the failure's message behind the
    prefix "Hugging Face Error: ". *)
Theorem hf_failure_is_returned
  (env : Env) (messages : list ChatMessage) (systemInstruction language : string)
  (world : ProviderCall -> Settled ChatCompletion) :
  Js.truthy (HUGGINGFACE_API_KEY env) = true ->
  exists hf req,
    calls_of world (analyze env messages systemInstruction language)
    = [hf_chatCompletion hf req]
    /\ forall failure,
         world (hf_chatCompletion hf req) = Rejected failure
         \/ (exists response,
                world (hf_chatCompletion hf req) = Fulfilled response
                /\ choices response = []
                /\ failure = Js.TypeError_reading_message) ->
         result_of world (analyze env messages systemInstruction language)
         = Returned {| status := 500;
                       body := json_error
                         ("Hugging Face Error: " ++ Js.error_message failure) |}.
Proof.
  intros H. destruct (getHFClient_truthy env H) as (key & _ & Hc).
  destruct (run_hf env messages systemInstruction language world Hc) as (req & _ & Hr).
  exists {| accessToken := key |}, req. unfold calls_of, result_of. rewrite Hr.
  split; [reflexivity|]. intros failure Hfail. simpl. f_equal.
  destruct Hfail as [-> | (response & -> & Hch & ->)].
  - reflexivity.
  - simpl. now rewrite Hch.
Qed.

Lemma hf_failure_is_returned_witness :
  result_of (hf_down "Model is overloaded" "A cat.")
    (analyze env_hf_and_openai scenario "Describe." "French")
  = Returned {| status := 500;
                body := json_error "Hugging Face Error: Model is overloaded" |}.
Proof.
  destruct (@hf_failure_is_returned env_hf_and_openai scenario "Describe." "French"
              (hf_down "Model is overloaded" "A cat.") eq_refl)
    as (hf & req & _ & Hfail).
  apply (Hfail {| Js.error_message := "Model is overloaded" |}).
  left. reflexivity.
Defined.

(** C3.  With no HUGGINGFACE_API_KEY, no OPENAI_API_KEY, no OLLAMA_API_KEY
    and no OLLAMA_BASE_URL, the handler makes no outbound call and answers
    with status 500 and an [error] field that names the variables to
    set. *)
Theorem unconfigured_is_500
  (env : Env) (messages : list ChatMessage) (systemInstruction language : string)
  (world : ProviderCall -> Settled ChatCompletion) :
  Js.truthy (HUGGINGFACE_API_KEY env) = false ->
  Js.truthy (OPENAI_API_KEY env) = false ->
  Js.truthy (OLLAMA_API_KEY env) = false ->
  Js.truthy (OLLAMA_BASE_URL env) = false ->
  exists error,
    run world (analyze env messages systemInstruction language)
    = ([], Returned {| status := 500; body := json_error error |})
    /\ mentions "HUGGINGFACE_API_KEY" error
    /\ mentions "OPENAI_API_KEY" error
    /\ mentions "OLLAMA_BASE_URL" error.
Proof.
  intros Hh Ho1 Ho2 Ho3. exists NO_KEYS. split.
  - apply run_unconfigured.
    + now apply getHFClient_falsy.
    + apply getOpenAIClient_None. auto.
  - repeat split.
    + exists "No API keys configured. Please set ", ", OPENAI_API_KEY, or OLLAMA_BASE_URL.".
      reflexivity.
    + exists "No API keys configured. Please set HUGGINGFACE_API_KEY, ", ", or OLLAMA_BASE_URL.".
      reflexivity.
    + exists "No API keys configured. Please set HUGGINGFACE_API_KEY, OPENAI_API_KEY, or ", ".".
      reflexivity.
Qed.

Lemma unconfigured_is_500_witness :
  exists error,
    run (answering "A cat.") (analyze env_empty scenario "Describe." "French")
    = ([], Returned {| status := 500; body := json_error error |})
    /\ mentions "HUGGINGFACE_API_KEY" error
    /\ mentions "OPENAI_API_KEY" error
    /\ mentions "OLLAMA_BASE_URL" error.
Proof.
  apply (unconfigured_is_500 env_empty scenario "Describe." "French" (answering "A cat."));
    reflexivity.
Defined.

(** ** The most recent user message and the scan of its parts *)

Lemma find_none_iff {A} (f : A -> bool) (l : list A) :
  find f l = None <-> forall x, In x l -> f x = false.
Proof.
  split; [apply find_none|].
  induction l as [|a l IH]; simpl; intros H; [reflexivity|].
  rewrite (H a (or_introl eq_refl)). apply IH. intros x Hx. apply H. now right.
Qed.

Lemma role_not_user (m : ChatMessage) :
  role m <> user <-> MessageRole_eqb (role m) user = false.
Proof.
  destruct (role m); simpl; split; try congruence; intros H; now elim H.
Qed.

Lemma lastUserMsg_None (messages : list ChatMessage) :
  lastUserMsg messages = None <-> forall m, In m messages -> role m <> user.
Proof.
  unfold lastUserMsg. rewrite find_none_iff. split; intros H m Hm.
  - apply role_not_user, H. now apply in_rev in Hm.
  - apply role_not_user, H. now apply in_rev.
Qed.

(** The lookup returns the user message after which no user message follows. *)
Lemma lastUserMsg_split (before after : list ChatMessage) (m : ChatMessage) :
  role m = user ->
  (forall x, In x after -> role x <> user) ->
  lastUserMsg (before ++ m :: after) = Some m.
Proof.
  intros Hm Hafter. unfold lastUserMsg.
  rewrite rev_app_distr. simpl. rewrite <- app_assoc. simpl.
  induction (rev after) as [|x l IH] eqn:E in Hafter, after |- *.
  - simpl. now rewrite Hm.
  - simpl.
    assert (Hx : MessageRole_eqb (role x) user = false).
    { apply role_not_user, Hafter. apply in_rev. rewrite E. now left. }
    rewrite Hx. apply (IH (rev l)).
    + intros y Hy. apply Hafter. apply in_rev. rewrite E. right. now apply in_rev.
    + apply rev_involutive.
Qed.

Lemma scan_part_image (st : option Image * string) (p : MessagePart) :
  fst (scan_part st p) = match image p with Some i => Some i | None => fst st end.
Proof. destruct st as [li lt]. reflexivity. Qed.

(** The scan ends without an image exactly when it started without one
    and no part has one. *)
Lemma scan_parts_None (ps : list MessagePart) (st : option Image * string) :
  fst (fold_left scan_part ps st) = None <->
  fst st = None /\ forall p, In p ps -> image p = None.
Proof.
  revert st. induction ps as [|p ps IH]; intros st; simpl.
  - split; [intros H; split; [exact H | intros p []] | intros [H _]; exact H].
  - rewrite IH, scan_part_image. split.
    + intros [H1 H2]. destruct (image p) eqn:Ep; [discriminate|].
      split; [exact H1|]. intros q [<-|Hq]; [exact Ep | now apply H2].
    + intros [H1 H2]. split.
      * now rewrite (H2 p (or_introl eq_refl)).
      * intros q Hq. apply H2. now right.
Qed.

Lemma scan_last_no_image (messages : list ChatMessage) (m : ChatMessage) :
  lastUserMsg messages = Some m ->
  (forall p, In p (parts m) -> image p = None) ->
  exists lastText, scan_last messages = (None, lastText).
Proof.
  intros Hm Hp. unfold scan_last. rewrite Hm.
  destruct (fold_left scan_part (parts m) (None, "")) as [li lt] eqn:E.
  assert (H : fst (fold_left scan_part (parts m) (None, "")) = None)
    by (apply scan_parts_None; auto).
  rewrite E in H. simpl in H. subst li. now exists lt.
Qed.

Lemma scan_last_image (messages : list ChatMessage) (m : ChatMessage)
    (p : MessagePart) (i : Image) :
  lastUserMsg messages = Some m ->
  In p (parts m) -> image p = Some i ->
  exists lastImage lastText, scan_last messages = (Some lastImage, lastText).
Proof.
  intros Hm Hp Hi. unfold scan_last. rewrite Hm.
  destruct (fold_left scan_part (parts m) (None, "")) as [[li|] lt] eqn:E; [eauto|].
  assert (H : fst (fold_left scan_part (parts m) (None, "")) = None) by now rewrite E.
  apply scan_parts_None in H. destruct H as [_ H]. rewrite (H p Hp) in Hi. discriminate.
Qed.

Lemma scan_last_no_user (messages : list ChatMessage) :
  (forall m, In m messages -> role m <> user) -> scan_last messages = (None, "").
Proof.
  intros H. unfold scan_last. apply lastUserMsg_None in H. now rewrite H.
Qed.

(** ** The serialisers *)

Lemma text_message_eq (m : ChatMessage) :
  text_message m
  = {| out_role := role_string (role m);
       content := content_string
         (String.concat " "
            (map (fun p => match text p with Some s => s | None => "" end) (parts m))) |}.
Proof.
  unfold text_message, Js.join. do 3 f_equal.
  apply map_ext. intros p. apply or_default_empty.
Qed.

Lemma vision_part_eq (p : MessagePart) :
  vision_part p
  = match image p with
    | Some i => image_url ("data:" ++ mimeType i ++ ";base64," ++ data i)
    | None => text_part (match text p with Some s => s | None => "" end)
    end.
Proof.
  unfold vision_part, data_uri. destruct (image p); [reflexivity|].
  now rewrite or_default_empty.
Qed.

Lemma text_messages_carry_no_image (messages : list ChatMessage) :
  existsb carries_image (map text_message messages) = false.
Proof.
  induction messages as [|m l IH]; simpl; [reflexivity | exact IH].
Qed.

Lemma vision_message_embeds (x : ChatMessage) (q : MessagePart) (i : Image) :
  In q (parts x) -> image q = Some i ->
  In (image_url ("data:" ++ mimeType i ++ ";base64," ++ data i))
     (map vision_part (parts x)).
Proof.
  intros Hq Hi. apply in_map_iff. exists q. split; [|exact Hq].
  rewrite vision_part_eq, Hi. reflexivity.
Qed.

(** ** The Hugging Face adapter *)

(** C4.  When the most recent user message of the conversation has no
    image part, the Hugging Face adapter makes one call whose request is
    text-only: after the system message, every message of the conversation
    is sent with a string content, the texts of its parts joined by single
    spaces (a part without text counts as the empty string); no message of
    the request carries an image payload; and [max_tokens] is 500. *)
Theorem text_only_when_last_user_has_no_image
  (env : Env) (before after : list ChatMessage) (m : ChatMessage)
  (systemInstruction language : string)
  (world : ProviderCall -> Settled ChatCompletion) :
  Js.truthy (HUGGINGFACE_API_KEY env) = true ->
  role m = user ->
  (forall x, In x after -> role x <> user) ->
  (forall p, In p (parts m) -> image p = None) ->
  let messages := before ++ m :: after in
  exists hf req,
    calls_of world (analyze env messages systemInstruction language)
    = [hf_chatCompletion hf req]
    /\ max_tokens req = 500
    /\ req_messages req
       = {| out_role := "system";
            content := content_string (fullSystemInstruction systemInstruction language) |}
         :: map (fun x =>
                   {| out_role := role_string (role x);
                      content := content_string
                        (String.concat " "
                           (map (fun p => match text p with Some s => s | None => "" end)
                                (parts x))) |})
                messages
    /\ existsb carries_image (req_messages req) = false.
Proof.
  intros Hk Hm Hafter Hparts messages.
  destruct (getHFClient_truthy env Hk) as (key & _ & Hc).
  destruct (scan_last_no_image messages (lastUserMsg_split before after m Hm Hafter) Hparts)
    as (lastText & Hs).
  exists {| accessToken := key |},
    (hf_text_request (fullSystemInstruction systemInstruction language) messages).
  unfold calls_of.
  rewrite (run_hf_text env messages systemInstruction language world Hc Hs).
  repeat split.
  - simpl. f_equal. apply map_ext. intros x. apply text_message_eq.
  - simpl. apply text_messages_carry_no_image.
Qed.

Lemma text_only_when_last_user_has_no_image_witness :
  exists hf req,
    calls_of (answering "Grey.") (analyze env_hf_only follow_up "Describe." "French")
    = [hf_chatCompletion hf req]
    /\ max_tokens req = 500
    /\ req_messages req
       = {| out_role := "system";
            content := content_string (fullSystemInstruction "Describe." "French") |}
         :: map (fun x =>
                   {| out_role := role_string (role x);
                      content := content_string
                        (String.concat " "
                           (map (fun p => match text p with Some s => s | None => "" end)
                                (parts x))) |})
                follow_up
    /\ existsb carries_image (req_messages req) = false.
Proof.
  apply (@text_only_when_last_user_has_no_image env_hf_only
           (firstn 2 follow_up) []
           {| id := "3"; role := user;
              parts := [ {| text := Some "What colour?"; image := None |};
                         {| text := Some "Be brief."; image := None |} ];
              timestamp := 2 |}
           "Describe." "French" (answering "Grey.")).
  - reflexivity.
  - reflexivity.
  - intros x [].
  - intros p [<-|[<-|[]]]; reflexivity.
Defined.

(** C10.  When the conversation has no user message at all (the empty
    conversation included), the lookup of the most recent user message
    finds nothing, no image is detected, and the handler goes through the
    text-only branch: it makes one Hugging Face call whose request is the
    system message followed by the serialised messages, with the 500
    budget, and answers from that call's outcome. *)
Theorem no_user_message_is_text_only
  (env : Env) (messages : list ChatMessage) (systemInstruction language : string)
  (world : ProviderCall -> Settled ChatCompletion) :
  Js.truthy (HUGGINGFACE_API_KEY env) = true ->
  (forall m, In m messages -> role m <> user) ->
  lastUserMsg messages = None
  /\ fst (scan_last messages) = None
  /\ exists hf,
       let req :=
         {| req_model := HF_MODEL;
            req_messages :=
              {| out_role := "system";
                 content := content_string (fullSystemInstruction systemInstruction language) |}
              :: map text_message messages;
            max_tokens := 500 |} in
       run world (analyze env messages systemInstruction language)
       = ([hf_chatCompletion hf req],
          Returned (hf_reply (world (hf_chatCompletion hf req)))).
Proof.
  intros Hk Hnone.
  destruct (getHFClient_truthy env Hk) as (key & _ & Hc).
  pose proof (scan_last_no_user messages Hnone) as Hs.
  split; [now apply lastUserMsg_None|]. split; [now rewrite Hs|].
  exists {| accessToken := key |}.
  exact (run_hf_text env messages systemInstruction language world Hc Hs).
Qed.

Lemma no_user_message_is_text_only_witness :
  lastUserMsg [] = None
  /\ fst (scan_last []) = None
  /\ exists hf,
       let req :=
         {| req_model := HF_MODEL;
            req_messages :=
              [ {| out_role := "system";
                   content := content_string (fullSystemInstruction "Describe." "French") |} ];
            max_tokens := 500 |} in
       run (answering "Nothing to see.") (analyze env_hf_only [] "Describe." "French")
       = ([hf_chatCompletion hf req],
          Returned (hf_reply (answering "Nothing to see." (hf_chatCompletion hf req)))).
Proof.
  apply (@no_user_message_is_text_only env_hf_only [] "Describe." "French"
           (answering "Nothing to see.")).
  - reflexivity.
  - intros m [].
Defined.

(** The multimodal branch is taken as soon as the most recent user message
    has a part with an image. *)
Lemma hf_vision_branch
  (env : Env) (before after : list ChatMessage) (m : ChatMessage)
  (p : MessagePart) (i : Image) (systemInstruction language : string)
  (world : ProviderCall -> Settled ChatCompletion) :
  Js.truthy (HUGGINGFACE_API_KEY env) = true ->
  role m = user ->
  (forall x, In x after -> role x <> user) ->
  In p (parts m) -> image p = Some i ->
  exists hf,
    let call :=
      hf_chatCompletion hf
        (hf_vision_request (fullSystemInstruction systemInstruction language)
           (before ++ m :: after)) in
    run world (analyze env (before ++ m :: after) systemInstruction language)
    = ([call], Returned (hf_reply (world call))).
Proof.
  intros Hk Hm Hafter Hp Hi.
  destruct (getHFClient_truthy env Hk) as (key & _ & Hc).
  destruct (scan_last_image (before ++ m :: after) p
              (lastUserMsg_split before after m Hm Hafter) Hp Hi)
    as (lastImage & lastText & Hs).
  exists {| accessToken := key |}.
  exact (run_hf_vision env (before ++ m :: after) systemInstruction language world Hc Hs).
Qed.

Lemma map_text_parts (ps : list MessagePart) :
  (forall p, In p ps -> image p = None) ->
  map vision_part ps
  = map (fun p => text_part (match text p with Some s => s | None => "" end)) ps.
Proof.
  intros H. apply map_ext_in. intros p Hp. now rewrite vision_part_eq, (H p Hp).
Qed.

(** C5.  When the most recent user message has exactly one image part, the
    Hugging Face adapter makes one call, with the 1000 budget, whose
    request starts with the system message (the system instruction
    followed by the language instruction) and contains that user message
    as a content array in which the image part has become an [image_url]
    entry with url "data:<mimeType>;base64,<data>" and every other part a
    text entry.  In the scenario of the specification the request is the
    system message, whose content ends in "French.", followed by a user
    message with the entries image_url "data:image/png;base64,AAA" and
    text "What is this?"; and when the provider answers, the caller gets
    status 200 with the first choice's content as [text]. *)
Theorem last_user_image_is_embedded :
  (forall (env : Env) (before after : list ChatMessage) (m : ChatMessage)
          (ps1 ps2 : list MessagePart) (p : MessagePart) (img : Image)
          (systemInstruction language : string)
          (world : ProviderCall -> Settled ChatCompletion),
      Js.truthy (HUGGINGFACE_API_KEY env) = true ->
      role m = user ->
      (forall x, In x after -> role x <> user) ->
      parts m = ps1 ++ p :: ps2 ->
      image p = Some img ->
      (forall q, In q (ps1 ++ ps2) -> image q = None) ->
      exists hf req rest,
        run world (analyze env (before ++ m :: after) systemInstruction language)
        = ([hf_chatCompletion hf req],
           Returned (hf_reply (world (hf_chatCompletion hf req))))
        /\ max_tokens req = 1000
        /\ req_messages req
           = {| out_role := "system";
                content := content_string
                  (systemInstruction ++ Js.LF ++ Js.LF
                   ++ "IMPORTANT: You MUST provide your response in "
                   ++ language ++ ".") |} :: rest
        /\ In {| out_role := "user";
                 content := content_parts
                   (map (fun q => text_part (match text q with Some s => s | None => "" end)) ps1
                    ++ image_url ("data:" ++ mimeType img ++ ";base64," ++ data img)
                    :: map (fun q => text_part (match text q with Some s => s | None => "" end)) ps2) |}
              rest)
  /\
  (forall (env : Env) (world : ProviderCall -> Settled ChatCompletion),
      Js.truthy (HUGGINGFACE_API_KEY env) = true ->
      exists hf system_content,
        let req :=
          {| req_model := HF_MODEL;
             req_messages :=
               [ {| out_role := "system"; content := content_string system_content |};
                 {| out_role := "user";
                    content := content_parts
                      [ image_url "data:image/png;base64,AAA";
                        text_part "What is this?" ] |} ];
             max_tokens := 1000 |} in
        ends_in "French." system_content
        /\ calls_of world (analyze env scenario "Describe." "French")
           = [hf_chatCompletion hf req]
        /\ forall c others,
             world (hf_chatCompletion hf req) = Fulfilled {| choices := c :: others |} ->
             result_of world (analyze env scenario "Describe." "French")
             = Returned {| status := 200;
                           body := json_text (message_content (message c)) |}).
Proof.
  split.
  - intros env before after m ps1 ps2 p img systemInstruction language world
      Hk Hm Hafter Hparts Hi Hothers.
    assert (Hp : In p (parts m)) by (rewrite Hparts; apply in_elt).
    destruct (hf_vision_branch env before after m p systemInstruction language world
                Hk Hm Hafter Hp Hi) as (hf & Hrun).
    exists hf. eexists. eexists. split; [exact Hrun|]. split; [reflexivity|].
    split; [reflexivity|].
    apply in_map_iff. exists m. split; [|apply in_elt].
    unfold vision_message. rewrite Hm, Hparts, map_app. simpl.
    rewrite vision_part_eq, Hi.
    rewrite !map_text_parts; [reflexivity | |];
      intros q Hq; apply Hothers, in_or_app; auto.
  - intros env world Hk.
    destruct (getHFClient_truthy env Hk) as (key & _ & Hc).
    assert (Hs : scan_last scenario = (Some png_AAA, "What is this?")) by reflexivity.
    pose proof (run_hf_vision env scenario "Describe." "French" world Hc Hs) as Hrun.
    exists {| accessToken := key |}, (fullSystemInstruction "Describe." "French").
    cbv zeta in *. split; [|split].
    + exists ("Describe." ++ Js.LF ++ Js.LF
              ++ "IMPORTANT: You MUST provide your response in ")%string. reflexivity.
    + unfold calls_of. rewrite Hrun. reflexivity.
    + intros c others Hw. unfold result_of. rewrite Hrun. simpl.
      change (hf_vision_request (fullSystemInstruction "Describe." "French") scenario)
        with {| req_model := HF_MODEL;
                req_messages :=
                  [ {| out_role := "system";
                       content := content_string (fullSystemInstruction "Describe." "French") |};
                    {| out_role := "user";
                       content := content_parts
                         [ image_url "data:image/png;base64,AAA";
                           text_part "What is this?" ] |} ];
                max_tokens := 1000 |}.
      rewrite Hw. reflexivity.
Qed.

Lemma last_user_image_is_embedded_witness :
  exists hf req rest,
    run (answering "Un chat.") (analyze env_hf_only scenario "Describe." "French")
    = ([hf_chatCompletion hf req],
       Returned (hf_reply (answering "Un chat." (hf_chatCompletion hf req))))
    /\ max_tokens req = 1000
    /\ req_messages req
       = {| out_role := "system";
            content := content_string
              ("Describe." ++ Js.LF ++ Js.LF
               ++ "IMPORTANT: You MUST provide your response in " ++ "French" ++ ".") |}
         :: rest
    /\ In {| out_role := "user";
             content := content_parts
               [ image_url ("data:" ++ "image/png" ++ ";base64," ++ "AAA");
                 text_part "What is this?" ] |}
          rest.
Proof.
  apply (proj1 last_user_image_is_embedded env_hf_only [] []
           {| id := "1"; role := user;
              parts := [ {| text := None; image := Some png_AAA |};
                         {| text := Some "What is this?"; image := None |} ];
              timestamp := 0 |}
           [] [ {| text := Some "What is this?"; image := None |} ]
           {| text := None; image := Some png_AAA |} png_AAA
           "Describe." "French" (answering "Un chat.")).
  - reflexivity.
  - reflexivity.
  - intros x [].
  - reflexivity.
  - reflexivity.
  - intros q [<-|[]]. reflexivity.
Defined.

(** C9.  In the multimodal branch, which is taken when the most recent
    user message has a part with an image, the request is the system
    message followed by every message of the conversation serialised the
    same way, each image part of each message as an [image_url] entry with
    its base64 data URI: images of earlier messages are embedded too, not
    only the one found in the most recent user message, whose parts
    serve to choose the branch and nothing else. *)
Theorem every_image_is_embedded
  (env : Env) (before after : list ChatMessage) (m : ChatMessage)
  (p : MessagePart) (i : Image) (systemInstruction language : string)
  (world : ProviderCall -> Settled ChatCompletion) :
  Js.truthy (HUGGINGFACE_API_KEY env) = true ->
  role m = user ->
  (forall x, In x after -> role x <> user) ->
  In p (parts m) -> image p = Some i ->
  let messages := before ++ m :: after in
  exists hf req,
    calls_of world (analyze env messages systemInstruction language)
    = [hf_chatCompletion hf req]
    /\ max_tokens req = 1000
    /\ req_messages req
       = {| out_role := "system";
            content := content_string (fullSystemInstruction systemInstruction language) |}
         :: map (fun x =>
                   {| out_role := role_string (role x);
                      content := content_parts
                        (map (fun q =>
                                match image q with
                                | Some j => image_url ("data:" ++ mimeType j ++ ";base64," ++ data j)
                                | None => text_part (match text q with Some s => s | None => "" end)
                                end)
                             (parts x)) |})
                messages
    /\ forall x q j,
         In x messages -> In q (parts x) -> image q = Some j ->
         exists entries,
           In {| out_role := role_string (role x); content := content_parts entries |}
              (req_messages req)
           /\ In (image_url ("data:" ++ mimeType j ++ ";base64," ++ data j)) entries.
Proof.
  intros Hk Hm Hafter Hp Hi messages. subst messages.
  destruct (hf_vision_branch env before after m p systemInstruction language world
              Hk Hm Hafter Hp Hi) as (hf & Hrun).
  exists hf. eexists. unfold calls_of. rewrite Hrun. split; [reflexivity|].
  split; [reflexivity|]. split.
  - simpl. f_equal. apply map_ext. intros x. unfold vision_message. do 2 f_equal.
    apply map_ext. intros q. apply vision_part_eq.
  - intros x q j Hx Hq Hj. exists (map vision_part (parts x)). split.
    + simpl. right. apply in_map_iff. exists x. split; [reflexivity | exact Hx].
    + now apply vision_message_embeds with (q := q).
Qed.

Lemma every_image_is_embedded_witness :
  exists hf req,
    calls_of (answering "A dog.") (analyze env_hf_only two_pictures "Describe." "French")
    = [hf_chatCompletion hf req]
    /\ max_tokens req = 1000
    /\ req_messages req
       = {| out_role := "system";
            content := content_string (fullSystemInstruction "Describe." "French") |}
         :: map (fun x =>
                   {| out_role := role_string (role x);
                      content := content_parts
                        (map (fun q =>
                                match image q with
                                | Some j => image_url ("data:" ++ mimeType j ++ ";base64," ++ data j)
                                | None => text_part (match text q with Some s => s | None => "" end)
                                end)
                             (parts x)) |})
                two_pictures
    /\ forall x q j,
         In x two_pictures -> In q (parts x) -> image q = Some j ->
         exists entries,
           In {| out_role := role_string (role x); content := content_parts entries |}
              (req_messages req)
           /\ In (image_url ("data:" ++ mimeType j ++ ";base64," ++ data j)) entries.
Proof.
  apply (@every_image_is_embedded env_hf_only (firstn 2 two_pictures) []
           {| id := "3"; role := user;
              parts := [ {| text := Some "And this?"; image := None |};
                         {| text := None;
                            image := Some {| data := "BBB"; mimeType := "image/jpeg" |} |} ];
              timestamp := 2 |}
           {| text := None; image := Some {| data := "BBB"; mimeType := "image/jpeg" |} |}
           {| data := "BBB"; mimeType := "image/jpeg" |}
           "Describe." "French" (answering "A dog.")).
  - reflexivity.
  - reflexivity.
  - intros x [].
  - right. left. reflexivity.
  - reflexivity.
Defined.

(** ** The OpenAI-compatible adapter *)

(** C6.  When the request goes to the OpenAI-compatible adapter
    (HUGGINGFACE_API_KEY absent, and OLLAMA_API_KEY, OPENAI_API_KEY or
    OLLAMA_BASE_URL present), the adapter makes one call whose request is
    the system message followed by every message of the conversation, in
    order, each as a content array in which every image part is an
    [image_url] entry with its base64 data URI and every other part a text
    entry; the model is "llava" when OLLAMA_BASE_URL is present and
    "gpt-4o" otherwise. *)
Theorem openai_serializes_everything
  (env : Env) (messages : list ChatMessage) (systemInstruction language : string)
  (world : ProviderCall -> Settled ChatCompletion) :
  Js.truthy (HUGGINGFACE_API_KEY env) = false ->
  Js.truthy (OLLAMA_API_KEY env) || Js.truthy (OPENAI_API_KEY env)
    || Js.truthy (OLLAMA_BASE_URL env) = true ->
  exists openai req,
    calls_of world (analyze env messages systemInstruction language)
    = [openai_chat_completions_create openai req]
    /\ req_model req = (if Js.truthy (OLLAMA_BASE_URL env) then "llava" else "gpt-4o")
    /\ req_messages req
       = {| out_role := "system";
            content := content_string (fullSystemInstruction systemInstruction language) |}
         :: map (fun x =>
                   {| out_role := role_string (role x);
                      content := content_parts
                        (map (fun q =>
                                match image q with
                                | Some j => image_url ("data:" ++ mimeType j ++ ";base64," ++ data j)
                                | None => text_part (match text q with Some s => s | None => "" end)
                                end)
                             (parts x)) |})
                messages
    /\ forall x q j,
         In x messages -> In q (parts x) -> image q = Some j ->
         exists entries,
           In {| out_role := role_string (role x); content := content_parts entries |}
              (req_messages req)
           /\ In (image_url ("data:" ++ mimeType j ++ ";base64," ++ data j)) entries.
Proof.
  intros Hh Ho.
  destruct (getOpenAIClient_Some env Ho) as (openai & Hc).
  pose proof (run_openai env messages systemInstruction language world
                (getHFClient_falsy env Hh) Hc) as Hrun.
  exists openai. eexists. unfold calls_of. rewrite Hrun. split; [reflexivity|].
  split; [reflexivity|]. split.
  - simpl. f_equal. apply map_ext. intros x. unfold vision_message. do 2 f_equal.
    apply map_ext. intros q. apply vision_part_eq.
  - intros x q j Hx Hq Hj. exists (map vision_part (parts x)). split.
    + simpl. right. apply in_map_iff. exists x. split; [reflexivity | exact Hx].
    + now apply vision_message_embeds with (q := q).
Qed.

Lemma openai_serializes_everything_witness :
  exists openai req,
    calls_of (answering "A dog.") (analyze env_ollama_only two_pictures "Describe." "French")
    = [openai_chat_completions_create openai req]
    /\ req_model req = "llava"
    /\ req_messages req
       = {| out_role := "system";
            content := content_string (fullSystemInstruction "Describe." "French") |}
         :: map (fun x =>
                   {| out_role := role_string (role x);
                      content := content_parts
                        (map (fun q =>
                                match image q with
                                | Some j => image_url ("data:" ++ mimeType j ++ ";base64," ++ data j)
                                | None => text_part (match text q with Some s => s | None => "" end)
                                end)
                             (parts x)) |})
                two_pictures
    /\ forall x q j,
         In x two_pictures -> In q (parts x) -> image q = Some j ->
         exists entries,
           In {| out_role := role_string (role x); content := content_parts entries |}
              (req_messages req)
           /\ In (image_url ("data:" ++ mimeType j ++ ";base64," ++ data j)) entries.
Proof.
  apply (@openai_serializes_everything env_ollama_only two_pictures "Describe." "French"
           (answering "A dog.")); reflexivity.
Defined.

(** ** The Gemini adapter *)

Lemma run_gemini
  (env : Env) (messages : list ChatMessage) (systemInstruction : string)
  (language : option string)
  (world : Gemini.Call -> Settled Gemini.GenerateContentResponse) (key : string) :
  GEMINI_API_KEY env = Some key -> Js.truthy_string key = true ->
  let call :=
    Gemini.models_generateContent {| Gemini.apiKey := key |}
      (Gemini.request messages
         (fullSystemInstruction systemInstruction (language_or_English language))) in
  run world (Gemini.analyzeImageAndChat env messages systemInstruction language)
  = ([call], gemini_reply (world call)).
Proof.
  intros Hk Ht call. unfold Gemini.analyzeImageAndChat. rewrite Hk, Ht. simpl.
  fold (language_or_English language). fold call.
  destruct (world call); reflexivity.
Qed.

Lemma run_gemini_unconfigured
  (env : Env) (messages : list ChatMessage) (systemInstruction : string)
  (language : option string)
  (world : Gemini.Call -> Settled Gemini.GenerateContentResponse) :
  Js.truthy (GEMINI_API_KEY env) = false ->
  run world (Gemini.analyzeImageAndChat env messages systemInstruction language)
  = ([], Threw {| Js.error_message := "GEMINI_API_KEY is not configured." |}).
Proof.
  intros H. unfold Gemini.analyzeImageAndChat.
  destruct (GEMINI_API_KEY env) as [key|]; simpl in H; [|reflexivity].
  now rewrite H.
Qed.

Lemma gemini_to_part_eq (part : MessagePart) :
  Gemini.to_part part
  = match image part with
    | Some i => Gemini.inlineData (data i) (mimeType i)
    | None => Gemini.text_only (match text part with Some s => s | None => "" end)
    end.
Proof.
  unfold Gemini.to_part. destruct (image part); [reflexivity|].
  now rewrite or_default_empty.
Qed.

(** C7.  With GEMINI_API_KEY present, [analyzeImageAndChat] makes exactly
    one call, the one-shot [generateContent] (not the streaming one), whose
    [contents] are the whole conversation in order: each message with role
    "model" for an assistant message and "user" for a user message, each
    image part as an [inlineData] part with the image's base64 data and
    mime type and every other part as a text part; the configuration
    carries the system instruction with the language instruction appended
    and the temperature 0.7. *)
Theorem gemini_serializes_everything
  (env : Env) (messages : list ChatMessage) (systemInstruction : string)
  (language : option string)
  (world : Gemini.Call -> Settled Gemini.GenerateContentResponse) :
  Js.truthy (GEMINI_API_KEY env) = true ->
  exists ai,
    calls_of world (Gemini.analyzeImageAndChat env messages systemInstruction language)
    = [ Gemini.models_generateContent ai
          {| Gemini.model := Gemini.GEMINI_MODEL;
             Gemini.contents :=
               map (fun msg =>
                      {| Gemini.content_role :=
                           match role msg with
                           | assistant => "model"
                           | user => "user"
                           end;
                         Gemini.content_parts :=
                           map (fun part =>
                                  match image part with
                                  | Some i => Gemini.inlineData (data i) (mimeType i)
                                  | None =>
                                      Gemini.text_only
                                        (match text part with Some s => s | None => "" end)
                                  end)
                               (parts msg) |})
                   messages;
             Gemini.config :=
               {| Gemini.systemInstruction :=
                    fullSystemInstruction systemInstruction (language_or_English language);
                  Gemini.temperature := (7 # 10)%Q |} |} ].
Proof.
  intros H. destruct (truthy_Some _ H) as (key & Hk & Ht).
  exists {| Gemini.apiKey := key |}.
  unfold calls_of. rewrite (run_gemini env messages systemInstruction language world Hk Ht).
  simpl. unfold Gemini.request. do 3 f_equal.
  apply map_ext. intros msg. unfold Gemini.to_content. f_equal.
  - destruct (role msg); reflexivity.
  - apply map_ext. intros part. apply gemini_to_part_eq.
Qed.

Lemma gemini_serializes_everything_witness :
  exists ai,
    calls_of (gemini_answering (Some "A dog."))
      (Gemini.analyzeImageAndChat env_gemini two_pictures "Describe." (Some "French"))
    = [ Gemini.models_generateContent ai
          {| Gemini.model := Gemini.GEMINI_MODEL;
             Gemini.contents :=
               [ {| Gemini.content_role := "user";
                    Gemini.content_parts := [ Gemini.inlineData "AAA" "image/png" ] |};
                 {| Gemini.content_role := "model";
                    Gemini.content_parts := [ Gemini.text_only "A cat." ] |};
                 {| Gemini.content_role := "user";
                    Gemini.content_parts :=
                      [ Gemini.text_only "And this?"; Gemini.inlineData "BBB" "image/jpeg" ] |} ];
             Gemini.config :=
               {| Gemini.systemInstruction := fullSystemInstruction "Describe." "French";
                  Gemini.temperature := (7 # 10)%Q |} |} ].
Proof.
  apply (@gemini_serializes_everything env_gemini two_pictures "Describe." (Some "French")
           (gemini_answering (Some "A dog."))).
  reflexivity.
Defined.

(** ** What every adapter does with the instruction, the answer and failures *)

(** The handler takes one of three ways, decided by the clients alone. *)
Lemma analyze_cases
  (env : Env) (messages : list ChatMessage) (systemInstruction language : string)
  (world : ProviderCall -> Settled ChatCompletion) :
  let full := fullSystemInstruction systemInstruction language in
  let outcome := run world (analyze env messages systemInstruction language) in
  (getHFClient env = None /\ getOpenAIClient env = None
   /\ outcome = ([], Returned (res_status_json 500 (json_error NO_KEYS))))
  \/ (exists hf req,
         getHFClient env = Some hf
         /\ (req = hf_text_request full messages \/ req = hf_vision_request full messages)
         /\ outcome = ([hf_chatCompletion hf req],
                       Returned (hf_reply (world (hf_chatCompletion hf req)))))
  \/ (exists openai req,
         getHFClient env = None /\ getOpenAIClient env = Some openai
         /\ req = openai_request (Js.truthy (OLLAMA_BASE_URL env)) full messages
         /\ outcome = ([openai_chat_completions_create openai req],
                       Returned (openai_reply (world (openai_chat_completions_create openai req))))).
Proof.
  intros full outcome. subst outcome.
  destruct (getHFClient env) as [hf|] eqn:Hh.
  - right. left.
    destruct (run_hf env messages systemInstruction language world Hh) as (req & Hreq & Hr).
    exists hf, req. auto.
  - destruct (getOpenAIClient env) as [openai|] eqn:Ho.
    + right. right. exists openai. eexists. repeat split.
      exact (run_openai env messages systemInstruction language world Hh Ho).
    + left. repeat split. now apply run_unconfigured.
Qed.

(** The claim as written fails on the Gemini adapter: a response without
    text does not make [analyzeImageAndChat] fail; it returns a fixed
    sentence. *)
Lemma gemini_empty_response_returns_substitute :
  run (gemini_answering None)
      (Gemini.analyzeImageAndChat env_gemini scenario "Describe." (Some "French"))
  = ([ Gemini.models_generateContent {| Gemini.apiKey := "g-key" |}
         (Gemini.request scenario (fullSystemInstruction "Describe." "French")) ],
     Returned "I'm sorry, I couldn't analyze that image.").
Proof. reflexivity. Qed.

(** C8, amended.  Every adapter sends the system instruction with the
    language instruction appended (the Router's adapters as the content of
    the leading system message, the Gemini adapter as
    [config.systemInstruction]) and answers with the text of the
    provider's response: the content of the first choice for the Router's
    adapters, the response's text for the Gemini adapter.  The Gemini
    adapter fails with "GEMINI_API_KEY is not configured.", without
    calling, when its key is absent; when the response has no text it does
    not fail but returns "I'm sorry, I couldn't analyze that image.".
    A Router adapter is called only when its credential is present.  A
    response without any choice gives a 500: with the error
    "Hugging Face Error: " followed by the runtime's message on the
    Hugging Face path, with the runtime's message alone on the OpenAI
    path. *)
Theorem adapters_instruction_text_and_errors
  (env : Env) (messages : list ChatMessage) (systemInstruction language : string)
  (world : ProviderCall -> Settled ChatCompletion)
  (gemini_world : Gemini.Call -> Settled Gemini.GenerateContentResponse) :
  let router := analyze env messages systemInstruction language in
  let gemini := Gemini.analyzeImageAndChat env messages systemInstruction (Some language) in
  let instruction :=
    (systemInstruction ++ Js.LF ++ Js.LF
     ++ "IMPORTANT: You MUST provide your response in " ++ language ++ ".")%string in
  (* the language instruction is appended *)
  (forall c, In c (calls_of world router) ->
     exists rest,
       req_messages (request_of c)
       = {| out_role := "system"; content := content_string instruction |} :: rest)
  /\ (forall c, In c (calls_of gemini_world gemini) ->
        Gemini.systemInstruction (Gemini.config (gemini_parameters_of c)) = instruction)
  (* the answer is the first candidate's text *)
  /\ (forall c choice others,
        In c (calls_of world router) ->
        world c = Fulfilled {| choices := choice :: others |} ->
        result_of world router
        = Returned {| status := 200;
                      body := json_text (message_content (message choice)) |})
  /\ (forall c t,
        In c (calls_of gemini_world gemini) ->
        gemini_world c = Fulfilled {| Gemini.response_text := Some t |} ->
        t <> "" ->
        result_of gemini_world gemini = Returned t)
  (* a missing credential *)
  /\ (Js.truthy (GEMINI_API_KEY env) = false ->
        run gemini_world gemini
        = ([], Threw {| Js.error_message := "GEMINI_API_KEY is not configured." |}))
  /\ (forall c, In c (calls_of world router) ->
        if is_hf_call c then Js.truthy (HUGGINGFACE_API_KEY env) = true
        else Js.truthy (OLLAMA_API_KEY env) || Js.truthy (OPENAI_API_KEY env)
             || Js.truthy (OLLAMA_BASE_URL env) = true)
  (* an empty response *)
  /\ (forall c t,
        In c (calls_of gemini_world gemini) ->
        gemini_world c = Fulfilled {| Gemini.response_text := t |} ->
        Js.truthy t = false ->
        result_of gemini_world gemini
        = Returned "I'm sorry, I couldn't analyze that image.")
  /\ (forall c,
        In c (calls_of world router) ->
        world c = Fulfilled {| choices := [] |} ->
        result_of world router
        = Returned {| status := 500;
                      body := json_error
                        ((if is_hf_call c then "Hugging Face Error: " else "")
                         ++ "Cannot read properties of undefined (reading 'message')") |}).
Proof.
  intros router gemini instruction.
  assert (Hinstr : fullSystemInstruction systemInstruction language = instruction)
    by reflexivity.
  pose proof (analyze_cases env messages systemInstruction language world) as Hcases.
  cbv zeta in Hcases. fold router in Hcases. rewrite Hinstr in Hcases.
  assert (Hgem : forall c, In c (calls_of gemini_world gemini) ->
            exists key,
              c = Gemini.models_generateContent {| Gemini.apiKey := key |}
                    (Gemini.request messages instruction)
              /\ run gemini_world gemini = ([c], gemini_reply (gemini_world c))).
  { intros c Hc. destruct (Js.truthy (GEMINI_API_KEY env)) eqn:Hk.
    - destruct (truthy_Some _ Hk) as (key & Hkey & Ht).
      pose proof (run_gemini env messages systemInstruction (Some language)
                    gemini_world Hkey Ht) as Hr.
      cbv zeta in Hr. simpl language_or_English in Hr. rewrite Hinstr in Hr.
      fold gemini in Hr. unfold calls_of in Hc. rewrite Hr in Hc.
      destruct Hc as [<-|[]]. exists key. split; [reflexivity | exact Hr].
    - unfold calls_of, gemini in Hc.
      rewrite (run_gemini_unconfigured env messages systemInstruction (Some language)
                 gemini_world Hk) in Hc.
      destruct Hc. }
  unfold calls_of, result_of.
  repeat match goal with |- _ /\ _ => split end.
  - intros c Hc.
    destruct Hcases as [(_ & _ & Hr) | [(hf & req & _ & Hreq & Hr) | (openai & req & _ & _ & Hreq & Hr)]];
      rewrite Hr in Hc; simpl in Hc; try contradiction; destruct Hc as [<-|[]]; simpl.
    + destruct Hreq as [-> | ->]; simpl; eauto.
    + rewrite Hreq. simpl. eauto.
  - intros c Hc. destruct (Hgem c Hc) as (key & -> & _). reflexivity.
  - intros c choice others Hc Hw.
    destruct Hcases as [(_ & _ & Hr) | [(hf & req & _ & _ & Hr) | (openai & req & _ & _ & _ & Hr)]];
      rewrite Hr in Hc |- *; simpl in Hc; try contradiction; destruct Hc as [<-|[]]; simpl;
      rewrite Hw; reflexivity.
  - intros c t Hc Hw Ht. destruct (Hgem c Hc) as (key & _ & Hr).
    fold (calls_of gemini_world gemini) in *.
    rewrite Hr, Hw. simpl. destruct t; [now elim Ht | reflexivity].
  - intros Hk. now apply run_gemini_unconfigured.
  - intros c Hc.
    destruct Hcases as [(_ & _ & Hr) | [(hf & req & Hh & _ & Hr) | (openai & req & _ & Ho & _ & Hr)]];
      rewrite Hr in Hc; simpl in Hc; try contradiction; destruct Hc as [<-|[]]; simpl.
    + exact (getHFClient_Some_truthy env Hh).
    + destruct (Js.truthy (OLLAMA_API_KEY env)) eqn:E1; [reflexivity|].
      destruct (Js.truthy (OPENAI_API_KEY env)) eqn:E2; [reflexivity|].
      destruct (Js.truthy (OLLAMA_BASE_URL env)) eqn:E3; [reflexivity|].
      assert (getOpenAIClient env = None) by (apply getOpenAIClient_None; auto).
      congruence.
  - intros c t Hc Hw Ht. destruct (Hgem c Hc) as (key & _ & Hr).
    rewrite Hr, Hw. simpl. destruct t as [[|a s]|]; simpl in *; [reflexivity | discriminate | reflexivity].
  - intros c Hc Hw.
    destruct Hcases as [(_ & _ & Hr) | [(hf & req & _ & _ & Hr) | (openai & req & _ & _ & _ & Hr)]];
      rewrite Hr in Hc |- *; simpl in Hc; try contradiction; destruct Hc as [<-|[]]; simpl;
      rewrite Hw; reflexivity.
Qed.

Lemma adapters_instruction_text_and_errors_witness :
  run (gemini_answering (Some "A cat."))
      (Gemini.analyzeImageAndChat env_hf_only scenario "Describe." (Some "French"))
  = ([], Threw {| Js.error_message := "GEMINI_API_KEY is not configured." |})
  /\ result_of (hf_no_choice "A cat.")
       (analyze env_hf_and_openai scenario "Describe." "French")
     = Returned {| status := 500;
                   body := json_error
                     "Hugging Face Error: Cannot read properties of undefined (reading 'message')" |}.
Proof.
  split.
  - pose proof (@adapters_instruction_text_and_errors env_hf_only scenario
                  "Describe." "French" (answering "A cat.")
                  (gemini_answering (Some "A cat."))) as H.
    cbv zeta in H. destruct H as (_ & _ & _ & _ & Hmissing & _).
    apply Hmissing. reflexivity.
  - pose proof (@adapters_instruction_text_and_errors env_hf_and_openai scenario
                  "Describe." "French" (hf_no_choice "A cat.")
                  (gemini_answering (Some "A cat."))) as H.
    cbv zeta in H. destruct H as (_ & _ & _ & _ & _ & _ & _ & Hempty).
    apply (Hempty (hf_chatCompletion {| accessToken := "hf_token" |}
                     (hf_vision_request (fullSystemInstruction "Describe." "French")
                        scenario))).
    + left. reflexivity.
    + reflexivity.
Defined.

(** * Further properties of the server handler *)


(** X2.  The answer is a 200 exactly when a call was made and the provider
    fulfilled it with at least one choice; the text is then the content of
    the first choice. *)
Theorem analyze_200_iff_first_choice
  (env : Env) (messages : list ChatMessage) (systemInstruction language : string)
  (world : ProviderCall -> Settled ChatCompletion) (r : HttpResponse) :
  result_of world (analyze env messages systemInstruction language) = Returned r ->
  (status r = 200 <->
   exists c choice others,
     calls_of world (analyze env messages systemInstruction language) = [c]
     /\ world c = Fulfilled {| choices := choice :: others |}
     /\ body r = json_text (message_content (message choice))).
Proof.
  unfold result_of, calls_of.
  destruct (analyze_cases env messages systemInstruction language world)
    as [(_ & _ & Hr) | [(hf & req & _ & _ & Hr) | (openai & req & _ & _ & _ & Hr)]];
    cbv zeta in Hr; rewrite Hr; simpl; intros Heq;
    assert (Hreply : r = _) by (symmetry; injection Heq; intros E; exact E);
    subst r; clear Heq.
  - split; [discriminate | intros (c & ? & ? & Hc & _); discriminate].
  - destruct (world (hf_chatCompletion hf req)) as [[[|choice others]]|e] eqn:Hw; simpl.
    + split; [discriminate|].
      intros (c & ch & ot & Hc & Hw' & _). injection Hc as <-. rewrite Hw in Hw'. discriminate.
    + split; [|reflexivity].
      intros _. exists (hf_chatCompletion hf req), choice, others. now rewrite Hw.
    + split; [discriminate|].
      intros (c & ch & ot & Hc & Hw' & _). injection Hc as <-. rewrite Hw in Hw'. discriminate.
  - destruct (world (openai_chat_completions_create openai req))
      as [[[|choice others]]|e] eqn:Hw; simpl.
    + split; [discriminate|].
      intros (c & ch & ot & Hc & Hw' & _). injection Hc as <-. rewrite Hw in Hw'. discriminate.
    + split; [|reflexivity].
      intros _. exists (openai_chat_completions_create openai req), choice, others.
      now rewrite Hw.
    + split; [discriminate|].
      intros (c & ch & ot & Hc & Hw' & _). injection Hc as <-. rewrite Hw in Hw'. discriminate.
Qed.

Lemma analyze_200_iff_first_choice_witness :
  status {| status := 200; body := json_text (Some "A cat.") |} = 200 <->
  exists c choice others,
    calls_of (answering "A cat.") (analyze env_hf_only scenario "Describe." "French") = [c]
    /\ answering "A cat." c = Fulfilled {| choices := choice :: others |}
    /\ body {| status := 200; body := json_text (Some "A cat.") |}
       = json_text (message_content (message choice)).
Proof.
  apply (@analyze_200_iff_first_choice env_hf_only scenario "Describe." "French"
           (answering "A cat.")).
  reflexivity.
Defined.

(** X3.  The handler answers without calling any provider exactly when
    none of the four variables is set; the answer is then the
    "No API keys configured" error, so the last [return] of the handler
    ("No provider available ...") is never reached. *)
Theorem no_call_iff_unconfigured
  (env : Env) (messages : list ChatMessage) (systemInstruction language : string)
  (world : ProviderCall -> Settled ChatCompletion) :
  (calls_of world (analyze env messages systemInstruction language) = [] <->
   Js.truthy (HUGGINGFACE_API_KEY env) = false
   /\ Js.truthy (OLLAMA_API_KEY env) = false
   /\ Js.truthy (OPENAI_API_KEY env) = false
   /\ Js.truthy (OLLAMA_BASE_URL env) = false)
  /\ (calls_of world (analyze env messages systemInstruction language) = [] ->
      result_of world (analyze env messages systemInstruction language)
      = Returned {| status := 500; body := json_error NO_KEYS |}).
Proof.
  unfold calls_of, result_of.
  destruct (analyze_cases env messages systemInstruction language world)
    as [(Hh & Ho & Hr) | [(hf & req & _ & _ & Hr) | (openai & req & _ & _ & _ & Hr)]];
    cbv zeta in Hr; rewrite Hr; simpl.
  - split; [|reflexivity]. split; [intros _ | reflexivity].
    apply getOpenAIClient_None in Ho. split; [|exact Ho].
    destruct (Js.truthy (HUGGINGFACE_API_KEY env)) eqn:Ht; [|reflexivity].
    destruct (getHFClient_truthy env Ht) as (? & _ & Hc). congruence.
  - split; [|discriminate]. split; [discriminate|].
    intros (Hh & H1 & H2 & H3). apply getHFClient_falsy in Hh.
    rewrite (run_unconfigured env messages systemInstruction language world Hh) in Hr;
      [discriminate | apply getOpenAIClient_None; auto].
  - split; [|discriminate]. split; [discriminate|].
    intros (Hh & H1 & H2 & H3). apply getHFClient_falsy in Hh.
    rewrite (run_unconfigured env messages systemInstruction language world Hh) in Hr;
      [discriminate | apply getOpenAIClient_None; auto].
Qed.

Lemma or_default_nonempty (v : option string) (d : string) :
  d <> "" -> Js.or_default v d <> "".
Proof.
  intros Hd. destruct v as [[|c s]|]; simpl; try exact Hd. discriminate.
Qed.

(** X4.  An [error] body is never the empty string, whatever the failure:
    an empty message of a failed OpenAI call is replaced by
    "An unexpected error occurred.", and the other errors carry fixed
    text. *)
Theorem error_is_never_empty
  (env : Env) (messages : list ChatMessage) (systemInstruction language : string)
  (world : ProviderCall -> Settled ChatCompletion) (r : HttpResponse) (e : string) :
  result_of world (analyze env messages systemInstruction language) = Returned r ->
  body r = json_error e ->
  e <> "" /\ status r = 500.
Proof.
  unfold result_of.
  destruct (analyze_cases env messages systemInstruction language world)
    as [(_ & _ & Hr) | [(hf & req & _ & _ & Hr) | (openai & req & _ & _ & _ & Hr)]];
    cbv zeta in Hr; rewrite Hr; simpl; intros Heq;
    assert (Hreply : r = _) by (symmetry; injection Heq; intros E; exact E);
    subst r; clear Heq.
  - simpl. intros [= <-]. split; [discriminate | reflexivity].
  - destruct (world (hf_chatCompletion hf req)) as [[[|choice others]]|err]; simpl;
      intros [= <-]; split; (discriminate || reflexivity).
  - destruct (world (openai_chat_completions_create openai req))
      as [[[|choice others]]|err]; simpl; intros [= <-]; split;
      try reflexivity; try discriminate.
    apply (or_default_nonempty (Some (Js.error_message err))). discriminate.
Qed.

Lemma error_is_never_empty_witness :
  "An unexpected error occurred." <> "" /\ status {| status := 500; body := json_error "An unexpected error occurred." |} = 500.
Proof.
  apply (@error_is_never_empty env_openai_only scenario "Describe." "French"
           (rejecting "")); reflexivity.
Defined.

(** X5.  The credentials a call carries: a Hugging Face call uses the
    value of HUGGINGFACE_API_KEY; an OpenAI call uses OLLAMA_API_KEY when
    that is set, otherwise OPENAI_API_KEY when that is set, otherwise the
    placeholder "dummy-key-for-ollama", with OLLAMA_BASE_URL as base URL
    when set and the library's default otherwise.  No call carries an
    empty key. *)
Theorem calls_carry_the_configured_credentials
  (env : Env) (messages : list ChatMessage) (systemInstruction language : string)
  (world : ProviderCall -> Settled ChatCompletion) (c : ProviderCall) :
  In c (calls_of world (analyze env messages systemInstruction language)) ->
  match c with
  | hf_chatCompletion hf _ =>
      HUGGINGFACE_API_KEY env = Some (accessToken hf) /\ accessToken hf <> ""
  | openai_chat_completions_create openai _ =>
      apiKey openai <> ""
      /\ (Js.truthy (OLLAMA_API_KEY env) = true ->
          OLLAMA_API_KEY env = Some (apiKey openai))
      /\ (Js.truthy (OLLAMA_API_KEY env) = false ->
          Js.truthy (OPENAI_API_KEY env) = true ->
          OPENAI_API_KEY env = Some (apiKey openai))
      /\ (Js.truthy (OLLAMA_API_KEY env) = false ->
          Js.truthy (OPENAI_API_KEY env) = false ->
          apiKey openai = "dummy-key-for-ollama")
      /\ (Js.truthy (OLLAMA_BASE_URL env) = true ->
          baseURL openai = OLLAMA_BASE_URL env)
      /\ (Js.truthy (OLLAMA_BASE_URL env) = false -> baseURL openai = None)
  end.
Proof.
  unfold calls_of.
  destruct (analyze_cases env messages systemInstruction language world)
    as [(_ & _ & Hr) | [(hf & req & Hh & _ & Hr) | (openai & req & _ & Ho & _ & Hr)]];
    cbv zeta in Hr; rewrite Hr; simpl; intros Hin; try contradiction;
    destruct Hin as [<-|[]].
  - pose proof (getHFClient_Some_truthy env Hh) as Ht.
    destruct (getHFClient_truthy env Ht) as (key & Hk & Hc).
    rewrite Hc in Hh. injection Hh as <-. simpl. split; [exact Hk|].
    destruct (truthy_Some _ Ht) as (s & Hs & Hts).
    rewrite Hk in Hs. injection Hs as ->. destruct s; [discriminate | discriminate].
  - unfold getOpenAIClient in Ho.
    destruct (negb (Js.truthy (Js.or_else (OLLAMA_API_KEY env) (OPENAI_API_KEY env)))
              && negb (Js.truthy (OLLAMA_BASE_URL env))); [discriminate|].
    injection Ho as <-. simpl. unfold Js.or_else.
    split; [apply or_default_nonempty; discriminate|].
    repeat split.
    + intros H1. rewrite H1. destruct (truthy_Some _ H1) as (s & -> & Hs).
      simpl. now rewrite Hs.
    + intros H1 H2. rewrite H1. destruct (truthy_Some _ H2) as (s & -> & Hs).
      simpl. now rewrite Hs.
    + intros H1 H2. rewrite H1.
      destruct (OPENAI_API_KEY env) as [s|]; simpl in *; [now rewrite H2 | reflexivity].
    + intros H3. now rewrite H3.
    + intros H3. now rewrite H3.
Qed.

Lemma calls_carry_the_configured_credentials_witness :
  apiKey {| apiKey := "dummy-key-for-ollama"; baseURL := Some "http://localhost:11434/v1" |} <> ""
  /\ (Js.truthy (OLLAMA_API_KEY env_ollama_only) = true ->
      OLLAMA_API_KEY env_ollama_only = Some "dummy-key-for-ollama")
  /\ (Js.truthy (OLLAMA_API_KEY env_ollama_only) = false ->
      Js.truthy (OPENAI_API_KEY env_ollama_only) = true ->
      OPENAI_API_KEY env_ollama_only = Some "dummy-key-for-ollama")
  /\ (Js.truthy (OLLAMA_API_KEY env_ollama_only) = false ->
      Js.truthy (OPENAI_API_KEY env_ollama_only) = false ->
      "dummy-key-for-ollama" = "dummy-key-for-ollama")
  /\ (Js.truthy (OLLAMA_BASE_URL env_ollama_only) = true ->
      Some "http://localhost:11434/v1" = OLLAMA_BASE_URL env_ollama_only)
  /\ (Js.truthy (OLLAMA_BASE_URL env_ollama_only) = false ->
      Some "http://localhost:11434/v1" = None).
Proof.
  apply (@calls_carry_the_configured_credentials env_ollama_only [] "Describe." "French"
           (answering "A cat.")
           (openai_chat_completions_create
              {| apiKey := "dummy-key-for-ollama";
                 baseURL := Some "http://localhost:11434/v1" |}
              (openai_request true (fullSystemInstruction "Describe." "French") []))).
  left. reflexivity.
Defined.

(** X6.  On the OpenAI path a rejected call reaches the outer [catch]:
    the caller gets a 500 whose error is the rejection's message as it
    is, without any provider prefix, or "An unexpected error occurred."
    when that message is empty; and no other call is made. *)
Theorem openai_rejection_is_returned
  (env : Env) (messages : list ChatMessage) (systemInstruction language : string)
  (world : ProviderCall -> Settled ChatCompletion) :
  Js.truthy (HUGGINGFACE_API_KEY env) = false ->
  Js.truthy (OLLAMA_API_KEY env) || Js.truthy (OPENAI_API_KEY env)
    || Js.truthy (OLLAMA_BASE_URL env) = true ->
  exists openai req,
    calls_of world (analyze env messages systemInstruction language)
    = [openai_chat_completions_create openai req]
    /\ forall failure,
         world (openai_chat_completions_create openai req) = Rejected failure ->
         result_of world (analyze env messages systemInstruction language)
         = Returned {| status := 500;
                       body := json_error
                         (if Js.truthy_string (Js.error_message failure)
                          then Js.error_message failure
                          else "An unexpected error occurred.") |}.
Proof.
  intros Hh Ho.
  destruct (getOpenAIClient_Some env Ho) as (openai & Hc).
  pose proof (run_openai env messages systemInstruction language world
                (getHFClient_falsy env Hh) Hc) as Hrun.
  cbv zeta in Hrun. eexists. eexists. unfold calls_of, result_of. rewrite Hrun.
  split; [reflexivity|]. intros failure Hw. simpl. now rewrite Hw.
Qed.

Lemma openai_rejection_is_returned_witness :
  result_of (rejecting "401 Unauthorized")
    (analyze env_openai_only scenario "Describe." "French")
  = Returned {| status := 500; body := json_error "401 Unauthorized" |}.
Proof.
  destruct (@openai_rejection_is_returned env_openai_only scenario "Describe." "French"
              (rejecting "401 Unauthorized") eq_refl eq_refl)
    as (openai & req & _ & Hfail).
  apply (Hfail {| Js.error_message := "401 Unauthorized" |}). reflexivity.
Defined.

(** The text-only branch is taken when the most recent user message has
    no image part. *)
Lemma hf_text_branch
  (env : Env) (before after : list ChatMessage) (m : ChatMessage)
  (systemInstruction language : string)
  (world : ProviderCall -> Settled ChatCompletion) :
  Js.truthy (HUGGINGFACE_API_KEY env) = true ->
  role m = user ->
  (forall x, In x after -> role x <> user) ->
  (forall p, In p (parts m) -> image p = None) ->
  exists hf,
    let call :=
      hf_chatCompletion hf
        (hf_text_request (fullSystemInstruction systemInstruction language)
           (before ++ m :: after)) in
    getHFClient env = Some hf
    /\ run world (analyze env (before ++ m :: after) systemInstruction language)
       = ([call], Returned (hf_reply (world call))).
Proof.
  intros Hk Hm Hafter Hparts.
  destruct (getHFClient_truthy env Hk) as (key & _ & Hc).
  destruct (scan_last_no_image (before ++ m :: after)
              (lastUserMsg_split before after m Hm Hafter) Hparts) as (lastText & Hs).
  exists {| accessToken := key |}. split; [exact Hc|].
  exact (run_hf_text env (before ++ m :: after) systemInstruction language world Hc Hs).
Qed.

Lemma text_message_without_images (m : ChatMessage) :
  text_message (without_images m) = text_message m.
Proof.
  unfold text_message, without_images. simpl. now rewrite map_map.
Qed.

(** X7.  In the text-only branch the images of the conversation do not
    reach the provider in any form: the call is the one the same
    conversation without any image would produce. *)
Theorem text_only_request_ignores_images
  (env : Env) (before after : list ChatMessage) (m : ChatMessage)
  (systemInstruction language : string)
  (world : ProviderCall -> Settled ChatCompletion) :
  Js.truthy (HUGGINGFACE_API_KEY env) = true ->
  role m = user ->
  (forall x, In x after -> role x <> user) ->
  (forall p, In p (parts m) -> image p = None) ->
  calls_of world
    (analyze env (map without_images (before ++ m :: after)) systemInstruction language)
  = calls_of world (analyze env (before ++ m :: after) systemInstruction language).
Proof.
  intros Hk Hm Hafter Hparts.
  destruct (hf_text_branch env before after m systemInstruction language world
              Hk Hm Hafter Hparts) as (hf & Hc & Hrun).
  destruct (hf_text_branch env (map without_images before) (map without_images after)
              (without_images m) systemInstruction language world Hk) as (hf' & Hc' & Hrun').
  - exact Hm.
  - intros x Hx. apply in_map_iff in Hx. destruct Hx as (y & <- & Hy). simpl. exact (Hafter y Hy).
  - intros p Hp. simpl in Hp. apply in_map_iff in Hp. now destruct Hp as (q & <- & _).
  - cbv zeta in Hrun, Hrun'. rewrite Hc in Hc'. injection Hc' as <-.
    assert (Hmap : map without_images (before ++ m :: after)
                   = map without_images before ++ without_images m :: map without_images after)
      by (rewrite map_app; reflexivity).
    unfold calls_of. rewrite Hmap, Hrun, Hrun', <- Hmap. unfold hf_text_request.
    rewrite map_map, (map_ext _ _ text_message_without_images). reflexivity.
Qed.

Lemma text_only_request_ignores_images_witness :
  calls_of (answering "Grey.")
    (analyze env_hf_only (map without_images follow_up) "Describe." "French")
  = calls_of (answering "Grey.") (analyze env_hf_only follow_up "Describe." "French").
Proof.
  apply (@text_only_request_ignores_images env_hf_only (firstn 2 follow_up) []
           {| id := "3"; role := user;
              parts := [ {| text := Some "What colour?"; image := None |};
                         {| text := Some "Be brief."; image := None |} ];
              timestamp := 2 |}
           "Describe." "French" (answering "Grey.")).
  - reflexivity.
  - reflexivity.
  - intros x [].
  - intros p [<-|[<-|[]]]; reflexivity.
Defined.

Lemma vision_message_without_captions (m : ChatMessage) :
  vision_message (without_captions m) = vision_message m.
Proof.
  unfold vision_message, without_captions. simpl. rewrite map_map. do 2 f_equal.
  apply map_ext. intros p. unfold vision_part. now destruct (image p) eqn:E; simpl; rewrite ?E.
Qed.

(** X8.  In the content arrays (the OpenAI path, and the multimodal branch
    of the Hugging Face path) a part that has an image is sent as the
    image alone: a text stored in the same part is not sent.  The call is
    the one the conversation without those texts would produce. *)
Theorem captions_of_image_parts_are_not_sent
  (env : Env) (before after : list ChatMessage) (m : ChatMessage)
  (p : MessagePart) (i : Image) (systemInstruction language : string)
  (world : ProviderCall -> Settled ChatCompletion) :
  role m = user ->
  (forall x, In x after -> role x <> user) ->
  In p (parts m) -> image p = Some i ->
  calls_of world
    (analyze env (map without_captions (before ++ m :: after)) systemInstruction language)
  = calls_of world (analyze env (before ++ m :: after) systemInstruction language).
Proof.
  intros Hm Hafter Hp Hi.
  assert (Hmap : map without_captions (before ++ m :: after)
                 = map without_captions before ++ without_captions m
                   :: map without_captions after)
    by (rewrite map_app; reflexivity).
  assert (Hreq : map vision_message (map without_captions (before ++ m :: after))
                 = map vision_message (before ++ m :: after)).
  { rewrite map_map. apply map_ext. apply vision_message_without_captions. }
  unfold calls_of.
  destruct (Js.truthy (HUGGINGFACE_API_KEY env)) eqn:Hk.
  - destruct (hf_vision_branch env before after m p systemInstruction language world
                Hk Hm Hafter Hp Hi) as (hf & Hrun).
    destruct (hf_vision_branch env (map without_captions before)
                (map without_captions after) (without_captions m)
                {| text := None; image := Some i |} (i := i)
                systemInstruction language world Hk) as (hf' & Hrun'); try reflexivity.
    + exact Hm.
    + intros x Hx. apply in_map_iff in Hx. destruct Hx as (y & <- & Hy). simpl.
      exact (Hafter y Hy).
    + simpl. apply in_map_iff. exists p. split; [now rewrite Hi | exact Hp].
    + cbv zeta in Hrun, Hrun'.
      destruct (getHFClient_truthy env Hk) as (key & _ & Hc).
      assert (hf = hf').
      { pose proof (run_hf env (before ++ m :: after) systemInstruction language world Hc)
          as (r1 & _ & H1).
        pose proof (run_hf env (map without_captions (before ++ m :: after))
                      systemInstruction language world Hc) as (r2 & _ & H2).
        rewrite Hmap, Hrun' in H2. rewrite Hrun in H1. congruence. }
      subst hf'. rewrite Hmap, Hrun, Hrun', <- Hmap. simpl. unfold hf_vision_request.
      now rewrite Hreq.
  - pose proof (getHFClient_falsy env Hk) as Hh.
    destruct (getOpenAIClient env) as [openai|] eqn:Ho.
    + rewrite !(run_openai env _ systemInstruction language world Hh Ho). simpl.
      unfold openai_request. now rewrite Hreq.
    + now rewrite !(run_unconfigured env _ systemInstruction language world Hh Ho).
Qed.

Lemma captions_of_image_parts_are_not_sent_witness :
  calls_of (answering "A cat.")
    (analyze env_openai_only
       (map without_captions
          [ {| id := "1"; role := user;
               parts := [ {| text := Some "my cat"; image := Some png_AAA |} ];
               timestamp := 0 |} ])
       "Describe." "French")
  = calls_of (answering "A cat.")
      (analyze env_openai_only
         [ {| id := "1"; role := user;
              parts := [ {| text := Some "my cat"; image := Some png_AAA |} ];
              timestamp := 0 |} ]
         "Describe." "French").
Proof.
  apply (@captions_of_image_parts_are_not_sent env_openai_only [] []
           {| id := "1"; role := user;
              parts := [ {| text := Some "my cat"; image := Some png_AAA |} ];
              timestamp := 0 |}
           {| text := Some "my cat"; image := Some png_AAA |} png_AAA
           "Describe." "French" (answering "A cat.")).
  - reflexivity.
  - intros x [].
  - left. reflexivity.
  - reflexivity.
Defined.

(** X9.  For a conversation whose most recent user message has an image,
    the Hugging Face adapter and the OpenAI-compatible adapter send the
    same messages with the same token budget; their requests differ in the
    model only. *)
Theorem hf_and_openai_send_the_same_messages
  (env_hf env_openai : Env) (before after : list ChatMessage) (m : ChatMessage)
  (p : MessagePart) (i : Image) (systemInstruction language : string)
  (world : ProviderCall -> Settled ChatCompletion) :
  Js.truthy (HUGGINGFACE_API_KEY env_hf) = true ->
  Js.truthy (HUGGINGFACE_API_KEY env_openai) = false ->
  Js.truthy (OLLAMA_API_KEY env_openai) || Js.truthy (OPENAI_API_KEY env_openai)
    || Js.truthy (OLLAMA_BASE_URL env_openai) = true ->
  role m = user ->
  (forall x, In x after -> role x <> user) ->
  In p (parts m) -> image p = Some i ->
  exists hf req1 openai req2,
    calls_of world (analyze env_hf (before ++ m :: after) systemInstruction language)
    = [hf_chatCompletion hf req1]
    /\ calls_of world (analyze env_openai (before ++ m :: after) systemInstruction language)
       = [openai_chat_completions_create openai req2]
    /\ req_messages req1 = req_messages req2
    /\ max_tokens req1 = max_tokens req2.
Proof.
  intros Hk Hk' Ho Hm Hafter Hp Hi.
  destruct (hf_vision_branch env_hf before after m p systemInstruction language world
              Hk Hm Hafter Hp Hi) as (hf & Hrun).
  destruct (getOpenAIClient_Some env_openai Ho) as (openai & Hc).
  pose proof (run_openai env_openai (before ++ m :: after) systemInstruction language world
                (getHFClient_falsy env_openai Hk') Hc) as Hrun'.
  cbv zeta in Hrun, Hrun'. unfold calls_of. rewrite Hrun, Hrun'.
  exists hf. eexists. exists openai. eexists. repeat split; reflexivity.
Qed.

Lemma hf_and_openai_send_the_same_messages_witness :
  exists hf req1 openai req2,
    calls_of (answering "A cat.") (analyze env_hf_only scenario "Describe." "French")
    = [hf_chatCompletion hf req1]
    /\ calls_of (answering "A cat.") (analyze env_openai_only scenario "Describe." "French")
       = [openai_chat_completions_create openai req2]
    /\ req_messages req1 = req_messages req2
    /\ max_tokens req1 = max_tokens req2.
Proof.
  apply (@hf_and_openai_send_the_same_messages env_hf_only env_openai_only [] []
           {| id := "1"; role := user;
              parts := [ {| text := None; image := Some png_AAA |};
                         {| text := Some "What is this?"; image := None |} ];
              timestamp := 0 |}
           {| text := None; image := Some png_AAA |} png_AAA
           "Describe." "French" (answering "A cat.")).
  - reflexivity.
  - reflexivity.
  - reflexivity.
  - reflexivity.
  - intros x [].
  - left. reflexivity.
  - reflexivity.
Defined.

(** X10.  Whatever the path, the request of a call holds the system
    message followed by one message per message of the conversation, in
    the same order and with the same roles: no message is dropped, merged
    or reordered. *)
Theorem requests_keep_the_roles_in_order
  (env : Env) (messages : list ChatMessage) (systemInstruction language : string)
  (world : ProviderCall -> Settled ChatCompletion) (c : ProviderCall) :
  In c (calls_of world (analyze env messages systemInstruction language)) ->
  map out_role (req_messages (request_of c))
  = "system" :: map (fun m => match role m with
                              | user => "user"
                              | assistant => "assistant"
                              end) messages.
Proof.
  unfold calls_of.
  destruct (analyze_cases env messages systemInstruction language world)
    as [(_ & _ & Hr) | [(hf & req & _ & Hreq & Hr) | (openai & req & _ & _ & Hreq & Hr)]];
    cbv zeta in Hr; rewrite Hr; simpl; intros Hin; try contradiction;
    destruct Hin as [<-|[]]; simpl.
  - destruct Hreq as [-> | ->]; simpl; f_equal; rewrite map_map; apply map_ext;
      intros m; simpl; now destruct (role m).
  - rewrite Hreq. simpl. f_equal. rewrite map_map. apply map_ext.
    intros m. simpl. now destruct (role m).
Qed.

Lemma requests_keep_the_roles_in_order_witness :
  map out_role
    (req_messages
       (request_of
          (hf_chatCompletion {| accessToken := "hf_token" |}
             (hf_text_request (fullSystemInstruction "Describe." "French") follow_up))))
  = ["system"; "user"; "assistant"; "user"].
Proof.
  apply (@requests_keep_the_roles_in_order env_hf_only follow_up "Describe." "French"
           (answering "Grey.")).
  left. reflexivity.
Defined.

(** * Further properties of the Gemini adapter *)

(** X11.  A rejected [generateContent] call makes [analyzeImageAndChat]
    reject with the very same error (nothing catches or wraps it), after
    that single call. *)
Theorem gemini_rejection_propagates
  (env : Env) (messages : list ChatMessage) (systemInstruction : string)
  (language : option string)
  (world : Gemini.Call -> Settled Gemini.GenerateContentResponse) :
  Js.truthy (GEMINI_API_KEY env) = true ->
  exists call,
    calls_of world (Gemini.analyzeImageAndChat env messages systemInstruction language)
    = [call]
    /\ forall failure,
         world call = Rejected failure ->
         result_of world (Gemini.analyzeImageAndChat env messages systemInstruction language)
         = Threw failure.
Proof.
  intros H. destruct (truthy_Some _ H) as (key & Hk & Ht).
  pose proof (run_gemini env messages systemInstruction language world Hk Ht) as Hrun.
  cbv zeta in Hrun. eexists. unfold calls_of, result_of. rewrite Hrun.
  split; [reflexivity|]. intros failure Hw. simpl. now rewrite Hw.
Qed.

Lemma gemini_rejection_propagates_witness :
  result_of (fun _ => Rejected {| Js.error_message := "quota exceeded" |})
    (Gemini.analyzeImageAndChat env_gemini scenario "Describe." (Some "French"))
  = Threw {| Js.error_message := "quota exceeded" |}.
Proof.
  destruct (@gemini_rejection_propagates env_gemini scenario "Describe." (Some "French")
              (fun _ => Rejected {| Js.error_message := "quota exceeded" |}) eq_refl)
    as (call & _ & Hfail).
  apply Hfail. reflexivity.
Defined.

(** X12.  [analyzeImageAndChat] makes at most one call, and a string it
    returns is never empty: it is the response's text when that is
    non-empty and the fixed sentence otherwise. *)
Theorem gemini_never_returns_empty
  (env : Env) (messages : list ChatMessage) (systemInstruction : string)
  (language : option string)
  (world : Gemini.Call -> Settled Gemini.GenerateContentResponse) (t : string) :
  result_of world (Gemini.analyzeImageAndChat env messages systemInstruction language)
  = Returned t ->
  t <> ""
  /\ exists call response,
       calls_of world (Gemini.analyzeImageAndChat env messages systemInstruction language)
       = [call]
       /\ world call = Fulfilled response
       /\ (t = "I'm sorry, I couldn't analyze that image."
           \/ Gemini.response_text response = Some t).
Proof.
  unfold result_of, calls_of.
  destruct (Js.truthy (GEMINI_API_KEY env)) eqn:H.
  - destruct (truthy_Some _ H) as (key & Hk & Ht).
    pose proof (run_gemini env messages systemInstruction language world Hk Ht) as Hrun.
    cbv zeta in Hrun. rewrite Hrun. simpl.
    destruct (world _) as [response|e] eqn:Hw; simpl; [|discriminate].
    intros [= <-]. split.
    + apply or_default_nonempty. discriminate.
    + eexists. exists response. split; [reflexivity|]. split; [exact Hw|].
      destruct (Gemini.response_text response) as [[|a s]|]; simpl; auto.
  - rewrite (run_gemini_unconfigured env messages systemInstruction language world H).
    discriminate.
Qed.

Lemma gemini_never_returns_empty_witness :
  "I'm sorry, I couldn't analyze that image." <> ""
  /\ exists call response,
       calls_of (gemini_answering (Some ""))
         (Gemini.analyzeImageAndChat env_gemini scenario "Describe." None)
       = [call]
       /\ gemini_answering (Some "") call = Fulfilled response
       /\ ("I'm sorry, I couldn't analyze that image."
           = "I'm sorry, I couldn't analyze that image."
           \/ Gemini.response_text response
              = Some "I'm sorry, I couldn't analyze that image.").
Proof.
  apply (@gemini_never_returns_empty env_gemini scenario "Describe." None
           (gemini_answering (Some ""))).
  reflexivity.
Defined.

(** X13.  When [language] is omitted the instruction sent asks for
    English; in every case the instruction sent is the system instruction
    followed by a blank line and the sentence naming the language. *)
Theorem gemini_language_defaults_to_English
  (env : Env) (messages : list ChatMessage) (systemInstruction : string)
  (language : option string)
  (world : Gemini.Call -> Settled Gemini.GenerateContentResponse) (c : Gemini.Call) :
  In c (calls_of world (Gemini.analyzeImageAndChat env messages systemInstruction language)) ->
  Gemini.systemInstruction (Gemini.config (gemini_parameters_of c))
  = (systemInstruction ++ Js.LF ++ Js.LF
     ++ "IMPORTANT: You MUST provide your response in "
     ++ match language with Some l => l | None => "English" end ++ ".")%string.
Proof.
  unfold calls_of.
  destruct (Js.truthy (GEMINI_API_KEY env)) eqn:H.
  - destruct (truthy_Some _ H) as (key & Hk & Ht).
    pose proof (run_gemini env messages systemInstruction language world Hk Ht) as Hrun.
    cbv zeta in Hrun. rewrite Hrun. simpl. intros [<-|[]]. reflexivity.
  - rewrite (run_gemini_unconfigured env messages systemInstruction language world H).
    intros [].
Qed.

Lemma gemini_language_defaults_to_English_witness :
  Gemini.systemInstruction
    (Gemini.config
       (gemini_parameters_of
          (Gemini.models_generateContent {| Gemini.apiKey := "g-key" |}
             (Gemini.request scenario (fullSystemInstruction "Describe." "English")))))
  = ("Describe." ++ Js.LF ++ Js.LF
     ++ "IMPORTANT: You MUST provide your response in " ++ "English" ++ ".")%string.
Proof.
  apply (@gemini_language_defaults_to_English env_gemini scenario "Describe." None
           (gemini_answering (Some "A cat."))).
  left. reflexivity.
Defined.

(** * The client

    [App.tsx]: uploading an image, sending a message (alone and against
    the server's handler) and exporting the conversation as text, JSON or
    PDF. *)

(** ** Strings *)

Lemma string_append_assoc (a b c : string) :
  ((a ++ b) ++ c = a ++ (b ++ c))%string.
Proof. induction a as [|x a IH]; simpl; [reflexivity | now rewrite IH]. Qed.

Lemma string_append_nil (a : string) : (a ++ "")%string = a.
Proof. induction a as [|x a IH]; simpl; [reflexivity | now rewrite IH]. Qed.

Lemma prefix_append (sep b : string) : String.prefix sep (sep ++ b) = true.
Proof.
  induction sep as [|c sep IH]; simpl; [now destruct b|].
  destruct (ascii_dec c c) as [_|H]; [exact IH | now elim H].
Qed.

Lemma split_scan_no_separator (c0 : ascii) (rest s cur : string) :
  JsString.occurs c0 s = false ->
  JsString.split_scan (String c0 rest) s 0 cur = [(cur ++ s)%string].
Proof.
  revert cur. induction s as [|c s IH]; intros cur H; simpl.
  - now rewrite string_append_nil.
  - simpl in H. apply orb_false_iff in H. destruct H as [Hc Hs].
    destruct (ascii_dec c0 c) as [->|_].
    + rewrite Ascii.eqb_refl in Hc. discriminate.
    + rewrite (IH _ Hs), string_append_assoc. reflexivity.
Qed.

Lemma split_scan_skip (sep s1 s2 cur : string) :
  JsString.split_scan sep (s1 ++ s2) (String.length s1) cur
  = JsString.split_scan sep s2 0 cur.
Proof.
  induction s1 as [|c s1 IH]; simpl; [|exact IH].
  destruct s2; reflexivity.
Qed.

(** A string with one separator, whose first character occurs nowhere
    else, splits into what is before it and what is after it. *)
Lemma split_one_separator (c0 : ascii) (rest a b : string) :
  JsString.occurs c0 a = false ->
  JsString.occurs c0 b = false ->
  JsString.split (String c0 rest) (a ++ String c0 rest ++ b) = [a; b].
Proof.
  intros Ha Hb. unfold JsString.split.
  assert (H : forall cur,
             JsString.split_scan (String c0 rest) (a ++ String c0 rest ++ b) 0 cur
             = [(cur ++ a)%string; b]).
  { induction a as [|c a IH]; intros cur.
    - change ("" ++ String c0 rest ++ b)%string with (String c0 (rest ++ b)).
      cbn [JsString.split_scan].
      change (String c0 (rest ++ b)) with (String c0 rest ++ b)%string.
      rewrite prefix_append.
      replace (String.length (String c0 rest) - 1)%nat with (String.length rest)
        by (simpl; lia).
      rewrite split_scan_skip, (split_scan_no_separator _ _ _ _ Hb). simpl.
      now rewrite string_append_nil.
    - simpl in Ha. apply orb_false_iff in Ha. destruct Ha as [Hc Ha].
      change ((String c a) ++ String c0 rest ++ b)%string
        with (String c (a ++ String c0 rest ++ b)).
      cbn [JsString.split_scan String.prefix].
      destruct (ascii_dec c0 c) as [->|_]; [now rewrite Ascii.eqb_refl in Hc|].
      rewrite (IH Ha), string_append_assoc. reflexivity. }
  exact (H "").
Qed.

Lemma Number_toString_inj (a b : Z) :
  JsString.Number_toString a = JsString.Number_toString b -> a = b.
Proof.
  unfold JsString.Number_toString. intros H.
  assert (Hn : forall z, Z.to_int z <> Decimal.Pos Decimal.Nil
                         /\ Z.to_int z <> Decimal.Neg Decimal.Nil).
  { intros z. split; intros E; pose proof (f_equal Z.of_int E) as E0;
      rewrite DecimalZ.of_to in E0; simpl in E0; subst z; discriminate E. }
  apply DecimalZ.to_int_inj.
  assert (Some (Z.to_int a) = Some (Z.to_int b)) as [= E]; [|exact E].
  rewrite <- (NilZero.isi (Z.to_int a)), <- (NilZero.isi (Z.to_int b)), H;
    try reflexivity; apply Hn.
Qed.

Example split_examples :
  JsString.split "," "a,b," = ["a"; "b"; ""]
  /\ JsString.split "ab" "ab" = [""; ""]
  /\ JsString.split ";base64," "data:image/png;base64,AAA" = ["data:image/png"; "AAA"]
  /\ JsString.split "T" "2026-01-02T03:04:05.678Z" = ["2026-01-02"; "03:04:05.678Z"]
  /\ JsString.split "," "abc" = ["abc"]
  /\ JsString.split "," "" = [""]
  /\ JsString.Number_toString 1767323045678 = "1767323045678"
  /\ JsString.Number_toString 0 = "0".
Proof. repeat split; reflexivity. Qed.

(** ** Uploading an image *)

(** X14.  Round trip of an upload: when the reader's result is the data
    URL "data:<type>;base64,<payload>" of the file (no ";" in the type or
    in the payload), the image stored has the payload as data and the
    file's type as mime type, nothing else in the state changes, and the
    data URI the server builds from the stored image is the reader's
    result again. *)
Theorem upload_round_trip (file_type payload : string) (st : Client.AppState) :
  JsString.occurs ";" file_type = false ->
  JsString.occurs ";" payload = false ->
  let result := ("data:" ++ file_type ++ ";base64," ++ payload)%string in
  exists img,
    Client.handleImageUpload_onload file_type result st
    = Some {| Client.messages := Client.messages st;
              Client.inputText := Client.inputText st;
              Client.selectedImage := Some img;
              Client.isAnalyzing := Client.isAnalyzing st;
              Client.error := Client.error st;
              Client.selectedLanguage := Client.selectedLanguage st;
              Client.showLangMenu := Client.showLangMenu st;
              Client.showDownloadMenu := Client.showDownloadMenu st |}
    /\ data img = payload
    /\ mimeType img = file_type
    /\ data_uri img = result
    /\ vision_part {| text := None; image := Some img |} = image_url result.
Proof.
  intros Ht Hp result. exists {| data := payload; mimeType := file_type |}.
  unfold Client.handleImageUpload_onload.
  assert (Hsplit : JsString.split ";base64," result = [("data:" ++ file_type)%string; payload]).
  { subst result.
    change ("data:" ++ file_type ++ ";base64," ++ payload)%string
      with (("data:" ++ file_type) ++ String ";" "base64," ++ payload)%string.
    apply split_one_separator; [|exact Hp]. simpl. exact Ht. }
  rewrite Hsplit. repeat split.
Qed.

Lemma upload_round_trip_witness :
  exists img,
    Client.handleImageUpload_onload "image/png" "data:image/png;base64,AAA"
      {| Client.messages := []; Client.inputText := "What is this?";
         Client.selectedImage := None; Client.isAnalyzing := false;
         Client.error := None; Client.selectedLanguage := "French";
         Client.showLangMenu := false; Client.showDownloadMenu := false |}
    = Some {| Client.messages := []; Client.inputText := "What is this?";
              Client.selectedImage := Some img; Client.isAnalyzing := false;
              Client.error := None; Client.selectedLanguage := "French";
              Client.showLangMenu := false; Client.showDownloadMenu := false |}
    /\ data img = "AAA"
    /\ mimeType img = "image/png"
    /\ data_uri img = "data:image/png;base64,AAA"
    /\ vision_part {| text := None; image := Some img |}
       = image_url "data:image/png;base64,AAA".
Proof.
  apply (@upload_round_trip "image/png" "AAA"
           {| Client.messages := []; Client.inputText := "What is this?";
              Client.selectedImage := None; Client.isAnalyzing := false;
              Client.error := None; Client.selectedLanguage := "French";
              Client.showLangMenu := false; Client.showDownloadMenu := false |});
    reflexivity.
Defined.

(** ** Sending a message *)

Section Send.

Variable trim : string -> string.
Variable w : Client.World.
Variable n : nat.
Variable st : Client.AppState.

Hypothesis Hsend : sendable trim st = true.

Let req := sent_request trim w n st.
Let st1 := Client.sending st (Client.messages st ++ [sent_message trim w n st]).

Lemma guard_of_sendable :
  negb (Js.truthy_string (trim (Client.inputText st)))
  && Js.is_null (Client.selectedImage st) = false.
Proof.
  unfold sendable in Hsend.
  destruct (Js.truthy_string _), (Js.is_null _); simpl in *; congruence.
Qed.

(** The request was rejected, or the body could not be parsed. *)
Lemma run_send_rejected (e : Js.Error) :
  Client.network w req = Rejected e
  \/ (exists okay, Client.network w req
                   = Fulfilled {| Client.ok := okay; Client.json := Rejected e |}) ->
  Client.run w n (Client.handleSendMessage trim st)
  = ([req],
     Returned
       (Client.setIsAnalyzing
          (Client.setError st1
             (Some (Js.or_default (Some (Js.error_message e))
                      "Failed to analyze image. Please try again.")))
          false)).
Proof.
  intros H. unfold Client.handleSendMessage. rewrite guard_of_sendable. simpl.
  change (Client.analyze_request _ _) with req.
  change {| id := _; role := user; parts := _; timestamp := _ |}
    with (sent_message trim w n st).
  destruct H as [-> | (okay & ->)]; [reflexivity|].
  destruct okay; reflexivity.
Qed.

(** The response is not [ok]. *)
Lemma run_send_not_ok (b : JsonBody) :
  Client.network w req = Fulfilled {| Client.ok := false; Client.json := Fulfilled b |} ->
  Client.run w n (Client.handleSendMessage trim st)
  = ([req],
     Returned
       (Client.setIsAnalyzing
          (Client.setError st1
             (Some (Js.or_default
                      (Some (Js.or_default (Client.error_field b) "Failed to analyze image."))
                      "Failed to analyze image. Please try again.")))
          false)).
Proof.
  intros H. unfold Client.handleSendMessage. rewrite guard_of_sendable. simpl.
  change (Client.analyze_request _ _) with req.
  change {| id := _; role := user; parts := _; timestamp := _ |}
    with (sent_message trim w n st). now rewrite H.
Qed.

(** The response is [ok]. *)
Lemma run_send_ok (b : JsonBody) :
  Client.network w req = Fulfilled {| Client.ok := true; Client.json := Fulfilled b |} ->
  Client.run w n (Client.handleSendMessage trim st)
  = ([req],
     Returned
       (Client.setIsAnalyzing
          (Client.append_message st1
             {| id := JsString.Number_toString (Client.clock w (S (S n)) + 1);
                role := assistant;
                parts := [ {| text := Client.text_field b; image := None |} ];
                timestamp := Client.clock w (S (S (S n))) |})
          false)).
Proof.
  intros H. unfold Client.handleSendMessage. rewrite guard_of_sendable. simpl.
  change (Client.analyze_request _ _) with req.
  change {| id := _; role := user; parts := _; timestamp := _ |}
    with (sent_message trim w n st). now rewrite H.
Qed.

End Send.

Lemma userParts_eq (trim : string -> string) (st : Client.AppState) :
  Client.userParts trim st
  = match Client.selectedImage st with
    | Some img => [ {| text := None; image := Some img |} ]
    | None => []
    end
    ++ (if Js.truthy_string (trim (Client.inputText st))
        then [ {| text := Some (trim (Client.inputText st)); image := None |} ]
        else []).
Proof.
  unfold Client.userParts.
  destruct (Client.selectedImage st), (Js.truthy_string _); reflexivity.
Qed.

(** Whatever the network does, a send makes one request and ends in a
    state; the cases of the network's answer. *)
Lemma run_send_cases (trim : string -> string) (w : Client.World) (n : nat)
    (st : Client.AppState) :
  sendable trim st = true ->
  let req := sent_request trim w n st in
  let st1 := Client.sending st (Client.messages st ++ [sent_message trim w n st]) in
  exists st',
    Client.run w n (Client.handleSendMessage trim st) = ([req], Returned st')
    /\ ((exists e, st' = Client.setIsAnalyzing (Client.setError st1 (Some e)) false)
        \/ (exists m, st' = Client.setIsAnalyzing (Client.append_message st1 m) false
                      /\ role m = assistant
                      /\ exists t, parts m = [ {| text := t; image := None |} ])).
Proof.
  intros Hs req st1.
  destruct (Client.network w req) as [[okay [b|e]]|e] eqn:Hn.
  - destruct okay.
    + eexists. split; [exact (@run_send_ok trim w n st Hs b Hn)|]. right.
      eexists. split; [reflexivity|]. split; [reflexivity|]. eexists. reflexivity.
    + eexists. split; [exact (@run_send_not_ok trim w n st Hs b Hn)|]. left. eauto.
  - eexists. split; [apply (@run_send_rejected trim w n st Hs e); right; eauto|].
    left. eauto.
  - eexists. split; [apply (@run_send_rejected trim w n st Hs e); left; exact Hn|].
    left. eauto.
Qed.



(** X16.  With a non-blank input or an image selected, [handleSendMessage]
    sends exactly one request, a POST to /api/analyze, whatever the
    network answers and whether or not another request is in flight
    ([isAnalyzing] is not consulted).  Its body holds the system
    instruction, the selected language and the whole conversation so far
    followed by one new user message, whose parts are the selected image
    (if any) and then the trimmed input (if not blank): never an empty
    list of parts. *)
Theorem send_posts_the_conversation_once (trim : string -> string) (w : Client.World)
    (n : nat) (st : Client.AppState) :
  Js.truthy_string (trim (Client.inputText st)) = true
  \/ Client.selectedImage st <> None ->
  exists userMessage st',
    Client.run w n (Client.handleSendMessage trim st)
    = ([ {| Client.url := "/api/analyze";
            Client.method := "POST";
            Client.content_type := "application/json";
            Client.fetch_body :=
              {| Client.body_messages := Client.messages st ++ [userMessage];
                 Client.body_systemInstruction := Client.SYSTEM_INSTRUCTION;
                 Client.body_language := Client.selectedLanguage st |} |} ],
       Returned st')
    /\ role userMessage = user
    /\ id userMessage = JsString.Number_toString (Client.clock w n)
    /\ timestamp userMessage = Client.clock w (S n)
    /\ parts userMessage
       = match Client.selectedImage st with
         | Some img => [ {| text := None; image := Some img |} ]
         | None => []
         end
         ++ (if Js.truthy_string (trim (Client.inputText st))
             then [ {| text := Some (trim (Client.inputText st)); image := None |} ]
             else [])
    /\ parts userMessage <> [].
Proof.
  intros H.
  assert (Hs : sendable trim st = true).
  { unfold sendable. destruct H as [-> | H]; [reflexivity|].
    destruct (Client.selectedImage st); [apply orb_true_r | now elim H]. }
  destruct (run_send_cases trim w n st Hs) as (st' & Hrun & _).
  exists (sent_message trim w n st), st'. split; [exact Hrun|].
  repeat split; try apply userParts_eq.
  simpl. rewrite userParts_eq.
  destruct H as [-> | H].
  - destruct (Client.selectedImage st); discriminate.
  - destruct (Client.selectedImage st); [discriminate | now elim H].
Qed.

Lemma send_posts_the_conversation_once_witness :
  exists userMessage st',
    Client.run {| Client.clock := ticking 1000;
                  Client.network := fun _ => Rejected {| Js.error_message := "offline" |} |}
      0 (Client.handleSendMessage Client.trim_blanks
           (asking (Some png_AAA) " What is this? " []))
    = ([ {| Client.url := "/api/analyze";
            Client.method := "POST";
            Client.content_type := "application/json";
            Client.fetch_body :=
              {| Client.body_messages := [] ++ [userMessage];
                 Client.body_systemInstruction := Client.SYSTEM_INSTRUCTION;
                 Client.body_language := "French" |} |} ],
       Returned st')
    /\ role userMessage = user
    /\ id userMessage = "1000"
    /\ timestamp userMessage = 1001
    /\ parts userMessage
       = [ {| text := None; image := Some png_AAA |} ]
         ++ [ {| text := Some "What is this?"; image := None |} ]
    /\ parts userMessage <> [].
Proof.
  apply (@send_posts_the_conversation_once Client.trim_blanks
           {| Client.clock := ticking 1000;
              Client.network := fun _ => Rejected {| Js.error_message := "offline" |} |}
           0 (asking (Some png_AAA) " What is this? " [])).
  left. reflexivity.
Defined.

(** X17.  When the response is [ok], the conversation ends up as the old
    one followed by the user message and one assistant message whose only
    part is the [text] of the body; no error is shown, the input box and
    the selected image are cleared and [isAnalyzing] is false again. *)
Theorem ok_response_appends_the_answer (trim : string -> string) (w : Client.World)
    (n : nat) (st : Client.AppState) (b : JsonBody) :
  sendable trim st = true ->
  Client.network w (sent_request trim w n st)
  = Fulfilled {| Client.ok := true; Client.json := Fulfilled b |} ->
  snd (Client.run w n (Client.handleSendMessage trim st))
  = Returned
      {| Client.messages :=
           Client.messages st
           ++ [ sent_message trim w n st;
                {| id := JsString.Number_toString (Client.clock w (S (S n)) + 1);
                   role := assistant;
                   parts := [ {| text := match b with
                                         | json_text t => t
                                         | json_error _ => None
                                         end;
                                 image := None |} ];
                   timestamp := Client.clock w (S (S (S n))) |} ];
         Client.inputText := "";
         Client.selectedImage := None;
         Client.isAnalyzing := false;
         Client.error := None;
         Client.selectedLanguage := Client.selectedLanguage st;
         Client.showLangMenu := Client.showLangMenu st;
         Client.showDownloadMenu := Client.showDownloadMenu st |}.
Proof.
  intros Hs Hn. rewrite (@run_send_ok trim w n st Hs b Hn). simpl.
  unfold Client.setIsAnalyzing, Client.append_message. simpl.
  rewrite <- app_assoc. reflexivity.
Qed.

Lemma ok_response_appends_the_answer_witness :
  snd (Client.run
         {| Client.clock := ticking 1000;
            Client.network := fun _ =>
              Fulfilled {| Client.ok := true;
                           Client.json := Fulfilled (json_text (Some "Un chat.")) |} |}
         0 (Client.handleSendMessage Client.trim_blanks
              (asking (Some png_AAA) " What is this? " [])))
  = Returned
      {| Client.messages :=
           [ {| id := "1000"; role := user;
                parts := [ {| text := None; image := Some png_AAA |};
                           {| text := Some "What is this?"; image := None |} ];
                timestamp := 1001 |};
             {| id := "1003"; role := assistant;
                parts := [ {| text := Some "Un chat."; image := None |} ];
                timestamp := 1003 |} ];
         Client.inputText := "";
         Client.selectedImage := None;
         Client.isAnalyzing := false;
         Client.error := None;
         Client.selectedLanguage := "French";
         Client.showLangMenu := false;
         Client.showDownloadMenu := false |}.
Proof.
  apply (@ok_response_appends_the_answer Client.trim_blanks
           {| Client.clock := ticking 1000;
              Client.network := fun _ =>
                Fulfilled {| Client.ok := true;
                             Client.json := Fulfilled (json_text (Some "Un chat.")) |} |}
           0 (asking (Some png_AAA) " What is this? " [])
           (json_text (Some "Un chat."))); reflexivity.
Defined.

(** X18.  When the exchange fails, the user message stays in the
    conversation, no assistant message is added, and an error is shown
    that is never empty: for a response that is not [ok], the [error] of
    its body, or "Failed to analyze image." when the body has none or an
    empty one; for a rejected request or an unreadable body, the
    rejection's message, or "Failed to analyze image. Please try again."
    when that is empty. *)
Theorem failed_exchange_keeps_the_question (trim : string -> string) (w : Client.World)
    (n : nat) (st : Client.AppState) (shown : string) :
  sendable trim st = true ->
  (exists b,
      Client.network w (sent_request trim w n st)
      = Fulfilled {| Client.ok := false; Client.json := Fulfilled b |}
      /\ shown = match b with
                 | json_error (String c e) => String c e
                 | _ => "Failed to analyze image."
                 end)
  \/ (exists e,
         (Client.network w (sent_request trim w n st) = Rejected e
          \/ exists okay,
               Client.network w (sent_request trim w n st)
               = Fulfilled {| Client.ok := okay; Client.json := Rejected e |})
         /\ shown = match Js.error_message e with
                    | String c m => String c m
                    | EmptyString => "Failed to analyze image. Please try again."
                    end) ->
  shown <> ""
  /\ snd (Client.run w n (Client.handleSendMessage trim st))
     = Returned
         {| Client.messages := Client.messages st ++ [sent_message trim w n st];
            Client.inputText := "";
            Client.selectedImage := None;
            Client.isAnalyzing := false;
            Client.error := Some shown;
            Client.selectedLanguage := Client.selectedLanguage st;
            Client.showLangMenu := Client.showLangMenu st;
            Client.showDownloadMenu := Client.showDownloadMenu st |}.
Proof.
  intros Hs [(b & Hn & ->) | (e & Hn & ->)].
  - rewrite (@run_send_not_ok trim w n st Hs b Hn).
    destruct b as [t|[|c e]]; split; try discriminate; reflexivity.
  - rewrite (@run_send_rejected trim w n st Hs e Hn).
    destruct (Js.error_message e); split; try discriminate; reflexivity.
Qed.

Lemma failed_exchange_keeps_the_question_witness :
  "offline" <> ""
  /\ snd (Client.run
            {| Client.clock := ticking 1000;
               Client.network := fun _ => Rejected {| Js.error_message := "offline" |} |}
            0 (Client.handleSendMessage Client.trim_blanks (asking None "Hello" [])))
     = Returned
         {| Client.messages :=
              [] ++ [ sent_message Client.trim_blanks
                        {| Client.clock := ticking 1000;
                           Client.network := fun _ =>
                             Rejected {| Js.error_message := "offline" |} |}
                        0 (asking None "Hello" []) ];
            Client.inputText := "";
            Client.selectedImage := None;
            Client.isAnalyzing := false;
            Client.error := Some "offline";
            Client.selectedLanguage := "French";
            Client.showLangMenu := false;
            Client.showDownloadMenu := false |}.
Proof.
  apply (@failed_exchange_keeps_the_question Client.trim_blanks
           {| Client.clock := ticking 1000;
              Client.network := fun _ => Rejected {| Js.error_message := "offline" |} |}
           0 (asking None "Hello" []) "offline").
  - reflexivity.
  - right. exists {| Js.error_message := "offline" |}. split; [left|]; reflexivity.
Defined.



(** X20.  When the clock does not go backwards, the two messages of one
    exchange get different ids (the assistant's id is its clock reading
    plus one). *)
Theorem exchange_ids_differ (trim : string -> string) (w : Client.World)
    (n : nat) (st : Client.AppState) (b : JsonBody) (st' : Client.AppState) :
  sendable trim st = true ->
  Client.clock w n <= Client.clock w (S (S n)) ->
  Client.network w (sent_request trim w n st)
  = Fulfilled {| Client.ok := true; Client.json := Fulfilled b |} ->
  snd (Client.run w n (Client.handleSendMessage trim st)) = Returned st' ->
  exists userMessage assistantMessage,
    Client.messages st' = Client.messages st ++ [userMessage; assistantMessage]
    /\ id userMessage <> id assistantMessage.
Proof.
  intros Hs Hclock Hn. rewrite (@run_send_ok trim w n st Hs b Hn). simpl.
  intros [= <-]. eexists. eexists. simpl. rewrite <- app_assoc. split; [reflexivity|].
  simpl. intros H. apply Number_toString_inj in H. lia.
Qed.

Lemma exchange_ids_differ_witness :
  exists userMessage assistantMessage,
    Client.messages
      {| Client.messages :=
           [ {| id := "1000"; role := user;
                parts := [ {| text := Some "Hello"; image := None |} ];
                timestamp := 1001 |};
             {| id := "1003"; role := assistant;
                parts := [ {| text := Some "Hi."; image := None |} ];
                timestamp := 1003 |} ];
         Client.inputText := ""; Client.selectedImage := None;
         Client.isAnalyzing := false; Client.error := None;
         Client.selectedLanguage := "French";
         Client.showLangMenu := false; Client.showDownloadMenu := false |}
    = Client.messages (asking None "Hello" []) ++ [userMessage; assistantMessage]
    /\ id userMessage <> id assistantMessage.
Proof.
  apply (@exchange_ids_differ Client.trim_blanks
           {| Client.clock := ticking 1000;
              Client.network := fun _ =>
                Fulfilled {| Client.ok := true;
                             Client.json := Fulfilled (json_text (Some "Hi.")) |} |}
           0 (asking None "Hello" []) (json_text (Some "Hi."))).
  - reflexivity.
  - unfold ticking. simpl. lia.
  - reflexivity.
  - reflexivity.
Defined.

(** ** The client and the server together *)

(** The shapes of the handler's answers. *)
Lemma analyze_reply
  (env : Env) (msgs : list ChatMessage) (systemInstruction language : string)
  (provider : ProviderCall -> Settled ChatCompletion) :
  exists r,
    run provider (analyze env msgs systemInstruction language)
    = (calls_of provider (analyze env msgs systemInstruction language), Returned r)
    /\ ((status r = 200
         /\ exists c choice others,
              calls_of provider (analyze env msgs systemInstruction language) = [c]
              /\ provider c = Fulfilled {| choices := choice :: others |}
              /\ body r = json_text (message_content (message choice)))
        \/ (status r = 500
            /\ (forall c choice others,
                   In c (calls_of provider (analyze env msgs systemInstruction language)) ->
                   provider c <> Fulfilled {| choices := choice :: others |})
            /\ exists a e, body r = json_error (String a e))).
Proof.
  unfold calls_of.
  destruct (analyze_cases env msgs systemInstruction language provider)
    as [(_ & _ & Hr) | [(hf & req & _ & _ & Hr) | (openai & req & _ & _ & _ & Hr)]];
    cbv zeta in Hr; rewrite Hr; simpl.
  - eexists. split; [reflexivity|]. right. split; [reflexivity|]. split; [intros ? ? ? []|].
    simpl. unfold NO_KEYS. eauto.
  - eexists. split; [reflexivity|].
    destruct (provider (hf_chatCompletion hf req)) as [[[|choice others]]|e] eqn:Hw; simpl.
    + right. split; [reflexivity|]. split; [|eauto].
      intros c ch ot [<-|[]]. rewrite Hw. discriminate.
    + left. split; [reflexivity|]. exists (hf_chatCompletion hf req), choice, others.
      now rewrite Hw.
    + right. split; [reflexivity|]. split; [|eauto].
      intros c ch ot [<-|[]]. rewrite Hw. discriminate.
  - eexists. split; [reflexivity|].
    destruct (provider (openai_chat_completions_create openai req))
      as [[[|choice others]]|e] eqn:Hw; simpl.
    + right. split; [reflexivity|]. split.
      * intros c ch ot [<-|[]]. rewrite Hw. discriminate.
      * unfold Js.TypeError_reading_message. simpl. eauto.
    + left. split; [reflexivity|].
      exists (openai_chat_completions_create openai req), choice, others. now rewrite Hw.
    + right. split; [reflexivity|]. split.
      * intros c ch ot [<-|[]]. rewrite Hw. discriminate.
      * destruct (Js.error_message e); simpl; eauto.
Qed.

Lemma served_by_delivers (env : Env) (provider : ProviderCall -> Settled ChatCompletion) :
  Client.delivers (Client.served_by env provider) env provider.
Proof.
  intros req r H. unfold Client.served_by. now rewrite H.
Qed.

(** X21.  An error of the server is shown as it is: when the network
    carries the request to the handler and the handler's answer back, and
    the handler answers with an [error] body, the error shown is that
    string (neither fallback text of the client is used) and the user
    message stays in the conversation. *)
Theorem server_error_is_shown_verbatim
  (trim : string -> string) (w : Client.World) (n : nat) (st : Client.AppState)
  (env : Env) (provider : ProviderCall -> Settled ChatCompletion)
  (r : HttpResponse) (e : string) :
  sendable trim st = true ->
  Client.delivers (Client.network w) env provider ->
  result_of provider
    (analyze env (Client.messages st ++ [sent_message trim w n st])
       Client.SYSTEM_INSTRUCTION (Client.selectedLanguage st))
  = Returned r ->
  body r = json_error e ->
  exists st',
    snd (Client.run w n (Client.handleSendMessage trim st)) = Returned st'
    /\ Client.error st' = Some e
    /\ Client.messages st' = Client.messages st ++ [sent_message trim w n st]
    /\ Client.isAnalyzing st' = false.
Proof.
  intros Hs Hnet Hr Hb.
  pose proof (Hnet (sent_request trim w n st) r Hr) as Hn.
  destruct (analyze_reply env (Client.messages st ++ [sent_message trim w n st])
              Client.SYSTEM_INSTRUCTION (Client.selectedLanguage st) provider)
    as (r' & Hrun & Hshape).
  unfold result_of in Hr. rewrite Hrun in Hr. simpl in Hr.
  assert (r' = r) by congruence. subst r'. clear Hr.
  destruct Hshape as [(_ & c & ch & ot & _ & _ & Ht) | (H500 & _ & a & e' & He)];
    [congruence|].
  rewrite Hb in He. assert (e = String a e') by congruence. subst e. clear He.
  unfold Client.http_response in Hn. rewrite H500, Hb in Hn. simpl in Hn.
  rewrite (@run_send_not_ok trim w n st Hs _ Hn). simpl. eexists. split; [reflexivity|].
  repeat split.
Qed.

Lemma server_error_is_shown_verbatim_witness :
  exists st',
    snd (Client.run
           {| Client.clock := ticking 1000;
              Client.network := Client.served_by env_empty (answering "A cat.") |}
           0 (Client.handleSendMessage Client.trim_blanks (asking None "Hello" [])))
    = Returned st'
    /\ Client.error st' = Some NO_KEYS
    /\ Client.messages st'
       = Client.messages (asking None "Hello" [])
         ++ [ sent_message Client.trim_blanks
                {| Client.clock := ticking 1000;
                   Client.network := Client.served_by env_empty (answering "A cat.") |}
                0 (asking None "Hello" []) ]
    /\ Client.isAnalyzing st' = false.
Proof.
  apply (@server_error_is_shown_verbatim Client.trim_blanks
           {| Client.clock := ticking 1000;
              Client.network := Client.served_by env_empty (answering "A cat.") |}
           0 (asking None "Hello" []) env_empty (answering "A cat.")
           {| status := 500; body := json_error NO_KEYS |} NO_KEYS).
  - reflexivity.
  - exact (served_by_delivers _ _).
  - reflexivity.
  - reflexivity.
Defined.

(** X22.  The provider's answer reaches the conversation: when the
    network carries the request to the handler and back, and the provider
    fulfils the handler's call with at least one choice, the conversation
    ends with an assistant message whose only part has the first choice's
    content as text, and no error is shown. *)
Theorem provider_answer_is_shown
  (trim : string -> string) (w : Client.World) (n : nat) (st : Client.AppState)
  (env : Env) (provider : ProviderCall -> Settled ChatCompletion)
  (c : ProviderCall) (choice : Choice) (others : list Choice) :
  sendable trim st = true ->
  Client.delivers (Client.network w) env provider ->
  In c (calls_of provider
          (analyze env (Client.messages st ++ [sent_message trim w n st])
             Client.SYSTEM_INSTRUCTION (Client.selectedLanguage st))) ->
  provider c = Fulfilled {| choices := choice :: others |} ->
  exists st' assistantMessage,
    snd (Client.run w n (Client.handleSendMessage trim st)) = Returned st'
    /\ Client.messages st'
       = Client.messages st ++ [sent_message trim w n st; assistantMessage]
    /\ role assistantMessage = assistant
    /\ parts assistantMessage
       = [ {| text := message_content (message choice); image := None |} ]
    /\ Client.error st' = None
    /\ Client.isAnalyzing st' = false.
Proof.
  intros Hs Hnet Hc Hw.
  destruct (analyze_reply env (Client.messages st ++ [sent_message trim w n st])
              Client.SYSTEM_INSTRUCTION (Client.selectedLanguage st) provider)
    as (r & Hrun & Hshape).
  assert (Hr : result_of provider
                 (analyze env (Client.messages st ++ [sent_message trim w n st])
                    Client.SYSTEM_INSTRUCTION (Client.selectedLanguage st)) = Returned r)
    by (unfold result_of; now rewrite Hrun).
  pose proof (Hnet (sent_request trim w n st) r Hr) as Hn.
  destruct Hshape as [(H200 & c' & ch & ot & Hcalls & Hw' & Hb) | (_ & Hnone & _)];
    [|now elim (Hnone c choice others Hc)].
  rewrite Hcalls in Hc. destruct Hc as [->|[]]. rewrite Hw in Hw'. injection Hw' as <- <-.
  unfold Client.http_response in Hn. rewrite H200, Hb in Hn. simpl in Hn.
  rewrite (@run_send_ok trim w n st Hs _ Hn). simpl. eexists. eexists.
  split; [reflexivity|]. simpl. rewrite <- app_assoc. repeat split.
Qed.

Lemma provider_answer_is_shown_witness :
  exists st' assistantMessage,
    snd (Client.run
           {| Client.clock := ticking 1000;
              Client.network := Client.served_by env_hf_only (answering "Un chat.") |}
           0 (Client.handleSendMessage Client.trim_blanks
                (asking (Some png_AAA) "What is this?" [])))
    = Returned st'
    /\ Client.messages st'
       = Client.messages (asking (Some png_AAA) "What is this?" [])
         ++ [ sent_message Client.trim_blanks
                {| Client.clock := ticking 1000;
                   Client.network := Client.served_by env_hf_only (answering "Un chat.") |}
                0 (asking (Some png_AAA) "What is this?" []);
              assistantMessage ]
    /\ role assistantMessage = assistant
    /\ parts assistantMessage = [ {| text := Some "Un chat."; image := None |} ]
    /\ Client.error st' = None
    /\ Client.isAnalyzing st' = false.
Proof.
  apply (@provider_answer_is_shown Client.trim_blanks
           {| Client.clock := ticking 1000;
              Client.network := Client.served_by env_hf_only (answering "Un chat.") |}
           0 (asking (Some png_AAA) "What is this?" []) env_hf_only (answering "Un chat.")
           (hf_chatCompletion {| accessToken := "hf_token" |}
              (hf_vision_request
                 (fullSystemInstruction Client.SYSTEM_INSTRUCTION "French")
                 [ sent_message Client.trim_blanks
                     {| Client.clock := ticking 1000;
                        Client.network :=
                          Client.served_by env_hf_only (answering "Un chat.") |}
                     0 (asking (Some png_AAA) "What is this?" []) ]))
           {| message := {| message_content := Some "Un chat." |} |} []).
  - reflexivity.
  - exact (served_by_delivers _ _).
  - left. reflexivity.
  - reflexivity.
Defined.

(** X23.  An attached image is always analysed on the Hugging Face path:
    the request the client sends makes the handler take the multimodal
    branch, whatever the earlier conversation is, and the last message
    the provider receives is the user's, with the image as a
    "data:<mimeType>;base64,<data>" entry followed by the trimmed input
    (if any). *)
Theorem attached_image_is_analysed
  (trim : string -> string) (w : Client.World) (n : nat) (st : Client.AppState)
  (env : Env) (provider : ProviderCall -> Settled ChatCompletion) (img : Image) :
  Client.selectedImage st = Some img ->
  Js.truthy (HUGGINGFACE_API_KEY env) = true ->
  exists sent hf req earlier,
    fst (Client.run w n (Client.handleSendMessage trim st)) = [sent]
    /\ calls_of provider
         (analyze env (Client.body_messages (Client.fetch_body sent))
            (Client.body_systemInstruction (Client.fetch_body sent))
            (Client.body_language (Client.fetch_body sent)))
       = [hf_chatCompletion hf req]
    /\ max_tokens req = 1000
    /\ req_messages req
       = earlier
         ++ [ {| out_role := "user";
                 content := content_parts
                   (image_url ("data:" ++ mimeType img ++ ";base64," ++ data img)
                    :: (if Js.truthy_string (trim (Client.inputText st))
                        then [ text_part (trim (Client.inputText st)) ]
                        else [])) |} ].
Proof.
  intros Hi Hk.
  assert (Hs : sendable trim st = true)
    by (unfold sendable; rewrite Hi; apply orb_true_r).
  destruct (run_send_cases trim w n st Hs) as (st' & Hrun & _).
  destruct (hf_vision_branch env (Client.messages st) [] (sent_message trim w n st)
              {| text := None; image := Some img |} (i := img)
              Client.SYSTEM_INSTRUCTION (Client.selectedLanguage st) provider Hk)
    as (hf & Hcall); try reflexivity.
  - intros x [].
  - simpl. rewrite userParts_eq, Hi. left. reflexivity.
  - cbv zeta in Hcall. exists (sent_request trim w n st), hf. eexists.
    exists (system_message
              (fullSystemInstruction Client.SYSTEM_INSTRUCTION (Client.selectedLanguage st))
            :: map vision_message (Client.messages st)).
    rewrite Hrun. split; [reflexivity|]. unfold calls_of. simpl Client.body_messages.
    simpl Client.body_systemInstruction. simpl Client.body_language.
    rewrite Hcall. split; [reflexivity|]. split; [reflexivity|].
    simpl. rewrite map_app. simpl. do 3 f_equal.
    unfold vision_message. simpl. rewrite userParts_eq, Hi. f_equal.
    destruct (Js.truthy_string (trim (Client.inputText st))) eqn:Ht; simpl; [|reflexivity].
    unfold vision_part. simpl. now rewrite Ht.
Qed.

Lemma attached_image_is_analysed_witness :
  exists sent hf req earlier,
    fst (Client.run
           {| Client.clock := ticking 1000;
              Client.network := Client.served_by env_hf_only (answering "Un chat.") |}
           0 (Client.handleSendMessage Client.trim_blanks
                (asking (Some png_AAA) " What is this? " follow_up)))
    = [sent]
    /\ calls_of (answering "Un chat.")
         (analyze env_hf_only (Client.body_messages (Client.fetch_body sent))
            (Client.body_systemInstruction (Client.fetch_body sent))
            (Client.body_language (Client.fetch_body sent)))
       = [hf_chatCompletion hf req]
    /\ max_tokens req = 1000
    /\ req_messages req
       = earlier
         ++ [ {| out_role := "user";
                 content := content_parts
                   [ image_url ("data:" ++ "image/png" ++ ";base64," ++ "AAA");
                     text_part "What is this?" ] |} ].
Proof.
  apply (@attached_image_is_analysed Client.trim_blanks
           {| Client.clock := ticking 1000;
              Client.network := Client.served_by env_hf_only (answering "Un chat.") |}
           0 (asking (Some png_AAA) " What is this? " follow_up)
           env_hf_only (answering "Un chat.") png_AAA); reflexivity.
Defined.

(** X24.  A question sent without attaching an image is answered without
    any image on the Hugging Face path: the handler takes the text-only
    branch, so the provider receives no image payload, not even the
    images of earlier turns. *)
Theorem question_without_image_is_text_only
  (trim : string -> string) (w : Client.World) (n : nat) (st : Client.AppState)
  (env : Env) (provider : ProviderCall -> Settled ChatCompletion) :
  Client.selectedImage st = None ->
  Js.truthy_string (trim (Client.inputText st)) = true ->
  Js.truthy (HUGGINGFACE_API_KEY env) = true ->
  exists sent hf req,
    fst (Client.run w n (Client.handleSendMessage trim st)) = [sent]
    /\ calls_of provider
         (analyze env (Client.body_messages (Client.fetch_body sent))
            (Client.body_systemInstruction (Client.fetch_body sent))
            (Client.body_language (Client.fetch_body sent)))
       = [hf_chatCompletion hf req]
    /\ max_tokens req = 500
    /\ existsb carries_image (req_messages req) = false.
Proof.
  intros Hi Ht Hk.
  assert (Hs : sendable trim st = true) by (unfold sendable; now rewrite Ht).
  destruct (run_send_cases trim w n st Hs) as (st' & Hrun & _).
  destruct (hf_text_branch env (Client.messages st) [] (sent_message trim w n st)
              Client.SYSTEM_INSTRUCTION (Client.selectedLanguage st) provider Hk)
    as (hf & _ & Hcall); try reflexivity.
  - intros x [].
  - simpl. rewrite userParts_eq, Hi, Ht. intros p [<-|[]]. reflexivity.
  - cbv zeta in Hcall. exists (sent_request trim w n st), hf. eexists.
    rewrite Hrun. split; [reflexivity|]. unfold calls_of. simpl Client.body_messages.
    simpl Client.body_systemInstruction. simpl Client.body_language.
    rewrite Hcall. split; [reflexivity|]. split; [reflexivity|].
    simpl. apply text_messages_carry_no_image.
Qed.

Lemma question_without_image_is_text_only_witness :
  exists sent hf req,
    fst (Client.run
           {| Client.clock := ticking 1000;
              Client.network := Client.served_by env_hf_only (answering "Grey.") |}
           0 (Client.handleSendMessage Client.trim_blanks
                (asking None "What colour?" scenario)))
    = [sent]
    /\ calls_of (answering "Grey.")
         (analyze env_hf_only (Client.body_messages (Client.fetch_body sent))
            (Client.body_systemInstruction (Client.fetch_body sent))
            (Client.body_language (Client.fetch_body sent)))
       = [hf_chatCompletion hf req]
    /\ max_tokens req = 500
    /\ existsb carries_image (req_messages req) = false.
Proof.
  apply (@question_without_image_is_text_only Client.trim_blanks
           {| Client.clock := ticking 1000;
              Client.network := Client.served_by env_hf_only (answering "Grey.") |}
           0 (asking None "What colour?" scenario)
           env_hf_only (answering "Grey.")); reflexivity.
Defined.

(** * Exporting the conversation *)

Section Exports.

Variable toISOString : Z -> string.
Variable toLocaleString : Z -> string.
Variable toLocaleTimeString : Z -> string.
Variable JSON_stringify : list ChatMessage -> string.
Variable splitTextToSize : string -> Z -> list string.



Lemma txt_part_eq (out : string) (part : MessagePart) :
  Download.txt_part out part = (out ++ Download.part_lines part)%string.
Proof.
  unfold Download.txt_part, Download.part_lines.
  destruct (text part) as [[|c t]|], (image part);
    cbv beta iota delta [Js.truthy Js.truthy_string Js.or_default];
    rewrite ?string_append_assoc, ?string_append_nil; reflexivity.
Qed.

Lemma fold_txt_part (ps : list MessagePart) (out : string) :
  fold_left Download.txt_part ps out
  = (out ++ fold_right String.append "" (map Download.part_lines ps))%string.
Proof.
  revert out. induction ps as [|p ps IH]; intros out; simpl.
  - now rewrite string_append_nil.
  - now rewrite IH, txt_part_eq, string_append_assoc.
Qed.








(** X27.  The text export holds no image data: it depends on the images
    of the conversation through their presence only, so replacing every
    image by another one leaves the export unchanged. *)
Theorem txt_export_ignores_image_data (now : Z) (messages : list ChatMessage)
    (g : Image -> Image) :
  Download.txt_export toLocaleString toLocaleTimeString now
    (map (Download.map_images g) messages)
  = Download.txt_export toLocaleString toLocaleTimeString now messages.
Proof.
  unfold Download.txt_export.
  generalize ("VisionTalk Conversation - " ++ toLocaleString now ++ Js.LF ++ Js.LF)%string.
  induction messages as [|m ms IH]; intros out; simpl; [reflexivity|].
  rewrite <- IH. f_equal. unfold Download.txt_message. simpl.
  rewrite !fold_txt_part, map_map. do 3 f_equal.
  apply map_ext. intros p. unfold Download.part_lines. simpl.
  now destruct (image p).
Qed.

End Exports.



Example txt_export_scenario :
  Download.txt_export Download.locale_example Download.time_example 0 scenario
  = ("VisionTalk Conversation - 1/2/2026, 3:04:05 AM" ++ Js.LF ++ Js.LF
     ++ "[3:04:05 AM] User:" ++ Js.LF
     ++ "[Image Uploaded]" ++ Js.LF
     ++ "What is this?" ++ Js.LF
     ++ Js.LF ++ "---" ++ Js.LF ++ Js.LF)%string.
Proof. reflexivity. Qed.

Example pdf_export_scenario :
  Download.pdf_export Download.locale_example Download.one_line 0 scenario
  = [ Download.setFontSize 16;
      Download.text_at "VisionTalk Conversation" 20 20;
      Download.setFontSize 10;
      Download.text_at "Date: 1/2/2026, 3:04:05 AM" 20 30;
      Download.setFont "helvetica" "bold";
      Download.text_at "User:" 20 45;
      Download.setFont "helvetica" "normal";
      Download.text_at "[Image Uploaded]" 20 50;
      Download.lines_at ["What is this?"] 20 60 ].
Proof. reflexivity. Qed.

(** ** The PDF cursor *)

Section Pdf.

Variable toLocaleString : Z -> string.
Variable splitTextToSize : string -> Z -> list string.

Lemma pdf_part_inv (part : MessagePart) (y : Z) (doc : list Download.PdfOp) :
  20 <= y <= 280 ->
  Forall Download.on_page doc ->
  Js.truthy (text part) = false \/ image part = None ->
  20 <= fst (Download.pdf_part splitTextToSize (y, doc) part) <= 270
  /\ Forall Download.on_page (snd (Download.pdf_part splitTextToSize (y, doc) part)).
Proof.
  intros Hy Hdoc Hpart. unfold Download.pdf_part.
  assert (Hlen : forall l : list string, 0 <= Z.of_nat (length l) * 5) by (intros; lia).
  destruct (Js.truthy (text part)) eqn:Ht.
  - destruct Hpart as [Hf | Hi]; [discriminate|]. rewrite Hi.
    pose proof (Hlen (splitTextToSize (Js.or_default (text part) "") 170)) as Hl.
    destruct (Z.gtb_spec
                (y + Z.of_nat (length (splitTextToSize (Js.or_default (text part) "") 170)) * 5 + 5)
                270); simpl; (split; [lia|]);
      repeat (apply Forall_app; split); auto;
      repeat constructor; unfold Download.on_page; simpl; lia.
  - destruct (image part) as [i|].
    + destruct (Z.gtb_spec (y + 10) 270); simpl; (split; [lia|]);
        repeat (apply Forall_app; split); auto;
        repeat constructor; unfold Download.on_page; simpl; lia.
    + destruct (Z.gtb_spec y 270); simpl; (split; [lia|]);
        repeat (apply Forall_app; split); auto;
        repeat constructor; unfold Download.on_page; simpl; lia.
Qed.

Lemma fold_pdf_part_inv (ps : list MessagePart) (y : Z) (doc : list Download.PdfOp) :
  20 <= y <= 280 ->
  Forall Download.on_page doc ->
  (forall p, In p ps -> Js.truthy (text p) = false \/ image p = None) ->
  20 <= fst (fold_left (Download.pdf_part splitTextToSize) ps (y, doc)) <= 280
  /\ (ps <> [] -> fst (fold_left (Download.pdf_part splitTextToSize) ps (y, doc)) <= 270)
  /\ Forall Download.on_page (snd (fold_left (Download.pdf_part splitTextToSize) ps (y, doc))).
Proof.
  revert y doc. induction ps as [|p ps IH]; intros y doc Hy Hdoc Hps; cbn [fold_left].
  - split; [exact Hy|]. split; [intros H; now elim H | exact Hdoc].
  - destruct (pdf_part_inv p Hy Hdoc (Hps p (or_introl eq_refl))) as [Hy1 Hdoc1].
    destruct (Download.pdf_part splitTextToSize (y, doc) p) as [y1 doc1] eqn:E.
    simpl in Hy1, Hdoc1.
    destruct (IH y1 doc1) as (H1 & H2 & H3); [lia | exact Hdoc1 | intros q Hq; apply Hps; now right |].
    split; [exact H1|]. split; [|exact H3]. intros _.
    destruct ps as [|q ps]; [simpl; lia | apply H2; discriminate].
Qed.

Lemma pdf_message_inv (m : ChatMessage) (y : Z) (doc : list Download.PdfOp) :
  20 <= y <= 275 ->
  Forall Download.on_page doc ->
  printable m ->
  20 <= fst (Download.pdf_message splitTextToSize (y, doc) m) <= 275
  /\ Forall Download.on_page (snd (Download.pdf_message splitTextToSize (y, doc) m)).
Proof.
  intros Hy Hdoc [Hne Hparts]. unfold Download.pdf_message.
  destruct (fold_pdf_part_inv (parts m) (y := y + 5)
              (doc := (doc ++ [Download.setFont "helvetica" "bold";
                               Download.text_at (Download.role_label m ++ ":") 20 y])
                      ++ [Download.setFont "helvetica" "normal"]))
    as (H1 & H2 & H3); [lia | | exact Hparts |].
  - repeat (apply Forall_app; split); auto;
      repeat constructor; unfold Download.on_page; simpl; lia.
  - destruct (fold_left _ (parts m) _) as [y1 doc1]. simpl in *.
    specialize (H2 Hne). split; [lia | exact H3].
Qed.

Lemma fold_pdf_message_inv (ms : list ChatMessage) (y : Z) (doc : list Download.PdfOp) :
  20 <= y <= 275 ->
  Forall Download.on_page doc ->
  (forall m, In m ms -> printable m) ->
  Forall Download.on_page (snd (fold_left (Download.pdf_message splitTextToSize) ms (y, doc))).
Proof.
  revert y doc. induction ms as [|m ms IH]; intros y doc Hy Hdoc Hms; cbn [fold_left];
    [exact Hdoc|].
  destruct (pdf_message_inv Hy Hdoc (Hms m (or_introl eq_refl))) as [Hy1 Hdoc1].
  destruct (Download.pdf_message splitTextToSize (y, doc) m) as [y1 doc1].
  apply IH; auto. intros q Hq. apply Hms. now right.
Qed.

(** X28.  When every message has at least one part and no part has both a
    text and an image, every drawing call of the PDF export starts
    between 20 and 280 from the top of its page, however long the
    conversation and however many lines a text is broken into. *)
Theorem pdf_export_stays_on_page (now : Z) (messages : list ChatMessage) :
  (forall m, In m messages -> printable m) ->
  Forall Download.on_page
    (Download.pdf_export toLocaleString splitTextToSize now messages).
Proof.
  intros H. unfold Download.pdf_export. apply fold_pdf_message_inv; [lia | | exact H].
  repeat constructor; unfold Download.on_page; simpl; lia.
Qed.

End Pdf.

Lemma pdf_export_stays_on_page_witness :
  Forall Download.on_page
    (Download.pdf_export Download.locale_example Download.one_line 0 follow_up).
Proof.
  apply (@pdf_export_stays_on_page Download.locale_example Download.one_line 0 follow_up).
  intros m [<-|[<-|[<-|[]]]]; (split; [discriminate|]);
    simpl; intros p Hp; repeat (destruct Hp as [<-|Hp]; [simpl; auto|]); destruct Hp.
Defined.

(** Without the hypothesis the cursor leaves the page: messages without
    parts push it down by 10 each and nothing brings it back. *)
Example pdf_export_leaves_the_page :
  ~ Forall Download.on_page
      (Download.pdf_export Download.locale_example Download.one_line 0
         (repeat {| id := "1"; role := user; parts := []; timestamp := 0 |} 25)).
Proof.
  intros H. rewrite Forall_forall in H.
  assert (Hpage : Download.on_page (Download.text_at "User:" 20 285)).
  { apply H. vm_compute. repeat (first [left; reflexivity | right]). }
  unfold Download.on_page in Hpage. simpl in Hpage. lia.
Qed.

Lemma run_send_blank (trim : string -> string) (w : Client.World) (n : nat)
    (st : Client.AppState) :
  sendable trim st = false ->
  Client.run w n (Client.handleSendMessage trim st) = ([], Returned st).
Proof.
  unfold sendable, Client.handleSendMessage. intros H.
  apply orb_false_iff in H. destruct H as [-> H].
  destruct (Client.selectedImage st); [discriminate | reflexivity].
Qed.

(** X29.  Sending keeps the conversation printable: when every message has
    at least one part and no part with both a text and an image, the same
    holds after [handleSendMessage], whatever the network answers. *)
Theorem send_keeps_the_conversation_printable (trim : string -> string)
    (w : Client.World) (n : nat) (st st' : Client.AppState) :
  (forall m, In m (Client.messages st) -> printable m) ->
  snd (Client.run w n (Client.handleSendMessage trim st)) = Returned st' ->
  forall m, In m (Client.messages st') -> printable m.
Proof.
  intros Hold Hrun.
  destruct (sendable trim st) eqn:Hs.
  - assert (Hum : printable (sent_message trim w n st)).
    { unfold printable. simpl. rewrite userParts_eq. unfold sendable in Hs. split.
      - destruct (Client.selectedImage st); [discriminate|].
        simpl in Hs. rewrite orb_false_r in Hs. now rewrite Hs.
      - intros p Hp. apply in_app_or in Hp. destruct Hp as [Hp|Hp].
        + destruct (Client.selectedImage st); [|destruct Hp].
          destruct Hp as [<-|[]]. now left.
        + destruct (Js.truthy_string (trim (Client.inputText st))); [|destruct Hp].
          destruct Hp as [<-|[]]. now right. }
    destruct (run_send_cases trim w n st Hs)
      as (st2 & Hrun2 & [(e & ->) | (am & -> & _ & t & Ham)]);
      rewrite Hrun2 in Hrun; simpl in Hrun; injection Hrun as <-; simpl; intros m Hm.
    + apply in_app_or in Hm. destruct Hm as [Hm|[<-|[]]]; [now apply Hold | exact Hum].
    + apply in_app_or in Hm. destruct Hm as [Hm|[<-|[]]].
      * apply in_app_or in Hm. destruct Hm as [Hm|[<-|[]]]; [now apply Hold | exact Hum].
      * unfold printable. rewrite Ham. split; [discriminate|].
        intros p [<-|[]]. now right.
  - rewrite (run_send_blank trim w n st Hs) in Hrun. simpl in Hrun.
    injection Hrun as <-. exact Hold.
Qed.

Lemma send_keeps_the_conversation_printable_witness :
  printable {| id := "1000"; role := user;
               parts := [ {| text := None; image := Some png_AAA |};
                          {| text := Some "What is this?"; image := None |} ];
               timestamp := 1001 |}
  /\ printable {| id := "1003"; role := assistant;
                  parts := [ {| text := Some "Un chat."; image := None |} ];
                  timestamp := 1003 |}.
Proof.
  pose proof (@send_keeps_the_conversation_printable Client.trim_blanks
                {| Client.clock := ticking 1000;
                   Client.network := fun _ =>
                     Fulfilled {| Client.ok := true;
                                  Client.json := Fulfilled (json_text (Some "Un chat.")) |} |}
                0 (asking (Some png_AAA) " What is this? " []) _
                (fun m (H : In m []) => match H with end) eq_refl) as H.
  split; apply H; simpl; auto.
Defined.

(** Removing the image right after an upload gives back the state before
    the upload, when no image was selected then. *)
Lemma upload_then_remove (file_type result : string) (st st' : Client.AppState) :
  Client.selectedImage st = None ->
  Client.handleImageUpload_onload file_type result st = Some st' ->
  Client.removeImage st' = st.
Proof.
  intros Hnone. unfold Client.handleImageUpload_onload.
  destruct (JsString.split ";base64," result) as [|a [|b l]]; try discriminate.
  intros [= <-]. unfold Client.removeImage. simpl. rewrite <- Hnone. now destruct st.
Qed.
